(** * Deep Agent with Ollama: streaming relay, blocking chat, tools, constructor

    A shallow embedding of [src/core/agent.py] and [src/core/tools.py],
    followed by [src/core/config.py], [src/cli.py] and [src/setup.py].

    - Python [str] values are sequences of Unicode code points ([PyStr.str]),
      so that [len] and slicing count characters the way Python does.
    - A Python generator is a computation that yields a list of fragments and
      then either returns or raises ([Gen.t]); plain functions that may raise
      live in [outcome].
    - Only exceptions that derive from [Exception] are modelled (they are the
      ones [except Exception] catches); an exception is carried by the text
      [str(e)] renders for it.
    - The agent runtime built by [create_deep_agent], the model client, the
      search provider, the system clock and the builtin [eval] are external:
      they enter as record fields, section variables or function arguments. *)

From Stdlib Require Import String Ascii DecimalString.
From Stdlib Require Import List NArith ZArith Bool Lia.
Import ListNotations.

Set Implicit Arguments.

(** ** Python strings *)

Module PyStr.

Definition char : Type := N.
Definition str : Type := list char.

(** An ASCII literal of the source. *)
Definition lit (s : string) : str :=
  map N_of_ascii (list_ascii_of_string s).

(** Truth value of a string: the empty string is falsy. *)
Definition truthy (s : str) : bool :=
  match s with [] => false | _ :: _ => true end.

(** Truth value of an attribute that is [None] or a string. *)
Definition truthy_opt (o : option str) : bool :=
  match o with None => false | Some s => truthy s end.

(** [sep.join(parts)] *)
Fixpoint join (sep : str) (parts : list str) : str :=
  match parts with
  | [] => []
  | [p] => p
  | p :: rest => p ++ sep ++ join sep rest
  end.

(** [str(n)] for an integer. *)
Definition of_N (n : N) : str :=
  lit (NilZero.string_of_uint (N.to_uint n)).

Definition of_Z (z : Z) : str :=
  match z with
  | Zneg p => lit "-" ++ of_N (Npos p)
  | _ => of_N (Z.to_N z)
  end.

(** [c in s] *)
Definition contains (s : str) (c : char) : bool :=
  existsb (N.eqb c) s.

(** The two pictographs the relay prints. *)
Definition wrench : char := 128295%N.        (* U+1F527 *)
Definition outbox : char := 128228%N.        (* U+1F4E4 *)

(** The line feed written [\n] in the source. *)
Definition nl : str := [10%N].

End PyStr.

Import PyStr.

(** ** Exceptions and generators *)

(** An exception is represented by the text of [str(e)]. *)
Definition exn : Type := str.

Inductive outcome (A : Type) : Type :=
| Returned (a : A)
| Raised (e : exn).

Arguments Returned {A} a.
Arguments Raised {A} e.

Module Outcome.

Definition bind {A B} (c : outcome A) (k : A -> outcome B) : outcome B :=
  match c with
  | Returned a => k a
  | Raised e => Raised e
  end.

(** [try: body  except Exception as e: handler(e)] *)
Definition try_except {A} (body : outcome A) (handler : exn -> outcome A)
  : outcome A :=
  match body with
  | Returned a => Returned a
  | Raised e => handler e
  end.

End Outcome.

Module Gen.

(** What a generator has yielded, and how it finished. *)
Definition t (Y A : Type) : Type := (list Y * outcome A)%type.

Definition ret {Y A} (a : A) : t Y A := ([], Returned a).

Definition raise {Y A} (e : exn) : t Y A := ([], Raised e).

Definition yield {Y} (y : Y) : t Y unit := ([y], Returned tt).

Definition bind {Y A B} (c : t Y A) (k : A -> t Y B) : t Y B :=
  match c with
  | (ys, Returned a) => let (zs, r) := k a in (ys ++ zs, r)
  | (ys, Raised e) => (ys, Raised e)
  end.

(** [for x in xs: body(x)] over a list that is already in memory. *)
Fixpoint for_each {Y A} (xs : list A) (body : A -> t Y unit) : t Y unit :=
  match xs with
  | [] => ret tt
  | x :: rest => bind (body x) (fun _ => for_each rest body)
  end.

(** [try: body  except Exception as e: handler(e)] inside a generator:
    what the body yielded before it raised stays yielded. *)
Definition try_except {Y A} (body : t Y A) (handler : exn -> t Y A) : t Y A :=
  match body with
  | (ys, Returned a) => (ys, Returned a)
  | (ys, Raised e) => let (zs, r) := handler e in (ys ++ zs, r)
  end.

Definition yielded {Y A} (c : t Y A) : list Y := fst c.
Definition finish {Y A} (c : t Y A) : outcome A := snd c.

End Gen.

Declare Scope gen_scope.
Delimit Scope gen_scope with gen.
Notation "x <- c ;; k" := (Gen.bind c (fun x => k))
  (at level 61, c at next level, right associativity) : gen_scope.
Notation "c ;; k" := (Gen.bind c (fun _ => k))
  (at level 61, right associativity) : gen_scope.

(** ** Messages, snapshots and the runtime *)

(** The message classes of the framework; [isinstance(m, AIMessage)] looks at
    this tag. *)
Inductive MessageClass : Type :=
| HumanMessage
| AIMessage
| ToolMessage
| SystemMessage.

Definition MessageClass_eqb (a b : MessageClass) : bool :=
  match a, b with
  | HumanMessage, HumanMessage
  | AIMessage, AIMessage
  | ToolMessage, ToolMessage
  | SystemMessage, SystemMessage => true
  | _, _ => false
  end.

(** A tool call is a dictionary; the relay reads key ["name"] with a
    subscript and key ["args"] with [.get(..., {})].  Argument values are kept
    as the text [f"{v}"] renders. *)
Record ToolCall : Type := {
  tc_name : option str;
  tc_args : option (list (str * str))
}.

(** Every message of the framework has [content], [name] (possibly [None])
    and, for assistant messages, [tool_calls]. *)
Record Message : Type := {
  msg_class : MessageClass;
  content : str;
  name : option str;
  tool_calls : list ToolCall
}.

(** A runtime state: a dictionary that may or may not have key ["messages"]. *)
Definition State : Type := option (list Message).

(** The iterator returned by [agent.stream] / [agent.astream]: it hands over a
    finite number of snapshots and then stops, or raises. *)
Inductive Stream : Type :=
| Stop
| Raises (e : exn)
| Next (chunk : State) (rest : Stream).

(** The compiled agent, as far as this code calls it.  The argument is the
    user message wrapped into [{"messages": [{"role": "user", ...}]}]. *)
Record Runtime : Type := {
  invoke : str -> outcome State;
  ainvoke : str -> outcome State;
  stream : str -> Stream;
  astream : str -> Stream
}.

(** The strings the relay yields, tagged by the [yield] statement that
    produced them. *)
Inductive Fragment : Type :=
| ToolInvocation (tool_name args_str : str)
| ToolOutput (tool : str) (tool_output : str)
| Content (s : str)
| ErrorFragment (e : exn).

(** The text that is actually yielded. *)
Definition text (f : Fragment) : str :=
  match f with
  | ToolInvocation tool_name args_str =>
      nl ++ [wrench] ++ lit " Using " ++ tool_name
        ++ lit "(" ++ args_str ++ lit ")" ++ nl
  | ToolOutput tool tool_output =>
      [outbox] ++ lit " " ++ tool ++ lit " output: " ++ tool_output ++ nl
  | Content s => s
  | ErrorFragment e => lit "Error: " ++ e
  end.

Definition is_content (f : Fragment) : bool :=
  match f with Content _ => true | _ => false end.
Definition is_tool_invocation (f : Fragment) : bool :=
  match f with ToolInvocation _ _ => true | _ => false end.
Definition is_tool_output (f : Fragment) : bool :=
  match f with ToolOutput _ _ => true | _ => false end.
Definition is_error (f : Fragment) : bool :=
  match f with ErrorFragment _ => true | _ => false end.

(** ** The agent object and the streaming relay
       ([DeepAgent.stream_chat], [DeepAgent.astream_chat]) *)

(** A tool object, as far as the constructor is concerned: it is known by its
    [name]. *)
Record Tool : Type := {
  tool_name : str
}.

(** The model client built by [ChatOllama(model=..., base_url=...,
    temperature=0.1)]; the temperature is kept in tenths. *)
Record LLM : Type := {
  llm_model : str;
  llm_base_url : str;
  llm_temperature_tenths : N
}.

(** The attributes of a [DeepAgent] instance. *)
Record DeepAgent : Type := {
  model_name : str;
  base_url : str;
  use_longterm_memory : bool;
  show_tools : bool;
  llm : LLM;
  tools : list Tool;
  agent : Runtime
}.

Module Relay.

Local Open Scope gen_scope.

(** [messages[-1]] of a list; [None] stands for the empty list, which the
    source never subscripts. *)
Fixpoint final_of (messages : list Message) : option Message :=
  match messages with
  | [] => None
  | [m] => Some m
  | _ :: rest => final_of rest
  end.

Definition isinstance (m : Message) (c : MessageClass) : bool :=
  MessageClass_eqb (msg_class m) c.

(** Truth value of a list: the empty list is falsy. *)
Definition truthy_list {A} (l : list A) : bool :=
  match l with [] => false | _ :: _ => true end.

(** [str(KeyError('name'))]: the quoted key. *)
Definition key_error : exn := lit "'name'".

(** [tool_call['name']]: a missing key raises [KeyError('name')]. *)
Definition getitem_name (tool_call : ToolCall) : Gen.t Fragment str :=
  match tc_name tool_call with
  | Some n => Gen.ret n
  | None => Gen.raise key_error
  end.

(** [", ".join([f"{k}={v}" for k, v in tool_args.items()])] *)
Definition render_args (tool_args : list (str * str)) : str :=
  join (lit ", ") (map (fun kv => fst kv ++ lit "=" ++ snd kv) tool_args).

(** Body of [for tool_call in final_message.tool_calls]. *)
Definition announce_call (tool_call : ToolCall) : Gen.t Fragment unit :=
  tool_name <- getitem_name tool_call ;;
  let tool_args := match tc_args tool_call with Some a => a | None => [] end in
  let args_str := render_args tool_args in
  Gen.yield (ToolInvocation tool_name args_str).

(** [if tool_output and len(tool_output) > 100:
       tool_output = tool_output[:100] + "..."] *)
Definition preview (tool_output : str) : str :=
  if truthy tool_output && (100 <? length tool_output)
  then firstn 100 tool_output ++ lit "..."
  else tool_output.

(** Body of [for msg in chunk["messages"]]. *)
Definition announce_result (msg : Message) : Gen.t Fragment unit :=
  match name msg with
  | Some n =>
      if truthy n
      then Gen.yield (ToolOutput n (preview (content msg)))
      else Gen.ret tt
  | None => Gen.ret tt
  end.

(** Body of the loop over the snapshots of one turn. *)
Definition relay_chunk (show : bool) (chunk : State) : Gen.t Fragment unit :=
  match chunk with
  | Some messages =>
      match final_of messages with
      | Some final_message =>
          if isinstance final_message AIMessage then
            (if show && truthy_list (tool_calls final_message)
             then Gen.for_each (tool_calls final_message) announce_call
             else Gen.ret tt) ;;
            (if show
             then Gen.for_each messages announce_result
             else Gen.ret tt) ;;
            (if truthy (content final_message)
             then Gen.yield (Content (content final_message))
             else Gen.ret tt)
          else Gen.ret tt
      | None => Gen.ret tt
      end
  | None => Gen.ret tt
  end.

(** [for chunk in <iterator>: ...], the iterator being the runtime's. *)
Fixpoint drain (show : bool) (it : Stream) : Gen.t Fragment unit :=
  match it with
  | Stop => Gen.ret tt
  | Raises e => Gen.raise e
  | Next chunk rest => relay_chunk show chunk ;; drain show rest
  end.

(** [except Exception as e: yield f"Error: {str(e)}"] *)
Definition on_error (e : exn) : Gen.t Fragment unit :=
  Gen.yield (ErrorFragment e).

End Relay.

Definition stream_chat (self : DeepAgent) (message : str)
  : Gen.t Fragment unit :=
  Gen.try_except
    (Relay.drain (show_tools self) (stream (agent self) message))
    Relay.on_error.

Definition astream_chat (self : DeepAgent) (message : str)
  : Gen.t Fragment unit :=
  Gen.try_except
    (Relay.drain (show_tools self) (astream (agent self) message))
    Relay.on_error.

(** ** Blocking chat ([DeepAgent.chat], [DeepAgent.achat]) *)

Module Blocking.

Definition placeholder : str :=
  lit "I apologize, but I couldn't generate a proper response.".

(** What follows the runtime call inside the [try]. *)
Definition extract (response : State) : str :=
  match response with
  | Some messages =>
      match Relay.final_of messages with
      | Some final_message =>
          if Relay.isinstance final_message AIMessage
          then content final_message
          else placeholder
      | None => placeholder
      end
  | None => placeholder
  end.

(** [except Exception as e: return f"Error: {str(e)}"] *)
Definition on_error (e : exn) : outcome str :=
  Returned (lit "Error: " ++ e).

End Blocking.

Definition chat (self : DeepAgent) (message : str) : outcome str :=
  Outcome.try_except
    (Outcome.bind (invoke (agent self) message)
       (fun response => Returned (Blocking.extract response)))
    Blocking.on_error.

Definition achat (self : DeepAgent) (message : str) : outcome str :=
  Outcome.try_except
    (Outcome.bind (ainvoke (agent self) message)
       (fun response => Returned (Blocking.extract response)))
    Blocking.on_error.

(** ** The tools ([src/core/tools.py]) *)

(** *** Integer arithmetic of the builtin [eval]

    [calculate] hands the expression to Python's builtin [eval].  The part of
    the expression language modelled here is integer arithmetic: decimal
    literals without a leading zero, binary [+], [-], [*], unary [+] and [-],
    parentheses and spaces, for expressions of at most 64 characters (so that
    no limit of the interpreter on nesting or recursion comes into play).
    Everything else ([/], [//], [**], [.], [,], calls, malformed input) is
    left to a parameter of [py_eval]. *)

Module IntExpr.

Inductive token : Type :=
| TNum (n : N)
| TPlus
| TMinus
| TStar
| TLParen
| TRParen.

Definition is_digit (c : char) : bool := (48 <=? c)%N && (c <=? 57)%N.

(** Value of a run of digits, most significant first; a run of more than
    one digit that starts with [0] is not a literal of the fragment. *)
Definition number (digits : list N) : option N :=
  match digits with
  | [] => None
  | 0%N :: _ :: _ => None
  | _ => Some (fold_left (fun acc d => (10 * acc + d)%N) digits 0%N)
  end.

(** Close the literal being read, if any. *)
Definition flush (num : list N) (rest : option (list token))
  : option (list token) :=
  match num with
  | [] => rest
  | _ :: _ =>
      match number num, rest with
      | Some n, Some ts => Some (TNum n :: ts)
      | _, _ => None
      end
  end.

Definition punct (c : char) : option (list token) :=
  if (c =? 32)%N then Some []
  else if (c =? 43)%N then Some [TPlus]
  else if (c =? 45)%N then Some [TMinus]
  else if (c =? 42)%N then Some [TStar]
  else if (c =? 40)%N then Some [TLParen]
  else if (c =? 41)%N then Some [TRParen]
  else None.

(** [num] holds the digits of the literal being read. *)
Fixpoint lex (s : str) (num : list N) : option (list token) :=
  match s with
  | [] => flush num (Some [])
  | c :: s' =>
      if is_digit c then lex s' (num ++ [(c - 48)%N])
      else
        match punct c with
        | Some p =>
            flush num
              (match lex s' [] with
               | Some ts => Some (p ++ ts)
               | None => None
               end)
        | None => None
        end
  end.

Inductive goal : Type :=
| Expr
| ExprRest (acc : Z)
| Term
| TermRest (acc : Z)
| Factor.

(** Recursive descent along Python's grammar:
    [expr: term (('+'|'-') term)*], [term: factor ('*' factor)*],
    [factor: ('+'|'-') factor | NUMBER | '(' expr ')'].  A factor cannot
    start with a star, so the power operator [**] is not accepted. *)
Fixpoint parse (fuel : nat) (g : goal) (ts : list token)
  : option (Z * list token) :=
  match fuel with
  | O => None
  | S fuel' =>
      match g with
      | Expr =>
          match parse fuel' Term ts with
          | Some (v, r) => parse fuel' (ExprRest v) r
          | None => None
          end
      | ExprRest acc =>
          match ts with
          | TPlus :: r =>
              match parse fuel' Term r with
              | Some (v, r') => parse fuel' (ExprRest (acc + v)) r'
              | None => None
              end
          | TMinus :: r =>
              match parse fuel' Term r with
              | Some (v, r') => parse fuel' (ExprRest (acc - v)) r'
              | None => None
              end
          | _ => Some (acc, ts)
          end
      | Term =>
          match parse fuel' Factor ts with
          | Some (v, r) => parse fuel' (TermRest v) r
          | None => None
          end
      | TermRest acc =>
          match ts with
          | TStar :: r =>
              match parse fuel' Factor r with
              | Some (v, r') => parse fuel' (TermRest (acc * v)) r'
              | None => None
              end
          | _ => Some (acc, ts)
          end
      | Factor =>
          match ts with
          | TNum n :: r => Some (Z.of_N n, r)
          | TPlus :: r => parse fuel' Factor r
          | TMinus :: r =>
              match parse fuel' Factor r with
              | Some (v, r') => Some (- v, r')
              | None => None
              end
          | TLParen :: r =>
              match parse fuel' Expr r with
              | Some (v, TRParen :: r') => Some (v, r')
              | _ => None
              end
          | _ => None
          end
      end
  end%Z.

Definition max_len : nat := 64.

(** The integer the expression denotes, when it lies in the fragment. *)
Definition value (expression : str) : option Z :=
  if length expression <=? max_len then
    match lex expression [] with
    | Some ts =>
        match parse (8 * S max_len) Expr ts with
        | Some (v, []) => Some v
        | _ => None
        end
    | None => None
    end
  else None.

End IntExpr.

(** A value [eval] can return: an integer, or another object (a float, a
    tuple, ...), which is given by what [f"{result}"] does with it: the text
    it shows, or the exception its conversion raises. *)
Inductive PyValue : Type :=
| PyInt (z : Z)
| PyOther (shown : outcome str).

(** The interpreter's default limit on the digits of an integer that is
    converted to text, and the text of the [ValueError] raised beyond it. *)
Definition max_str_digits : nat := 4300.

Definition int_limit_error : exn :=
  lit "Exceeds the limit (4300 digits) for integer string conversion"
    ++ lit "; use sys.set_int_max_str_digits() to increase the limit".

(** [f"{result}"] *)
Definition format_value (v : PyValue) : outcome str :=
  match v with
  | PyInt z =>
      if length (of_N (Z.abs_N z)) <=? max_str_digits
      then Returned (of_Z z)
      else Raised int_limit_error
  | PyOther shown => shown
  end.

(** The builtin [eval]: integer arithmetic where [IntExpr] covers the
    expression, the parameter [beyond] everywhere else. *)
Definition py_eval (beyond : str -> outcome PyValue) (expression : str)
  : outcome PyValue :=
  match IntExpr.value expression with
  | Some z => Returned (PyInt z)
  | None => beyond expression
  end.

(** *** The three tool functions *)

(** A dictionary with string keys and string values. *)
Definition Dict : Type := list (str * str).

(** [d.get(key, default)] with the empty string as default. *)
Fixpoint dict_get (d : Dict) (key : str) : str :=
  match d with
  | [] => []
  | (k, v) :: rest =>
      if list_eq_dec N.eq_dec k key then v else dict_get rest key
  end.

Record FormattedResult : Type := {
  title : str;
  body : str;
  href : str;
  hostname : str
}.

(** What [datetime.now()] returns. *)
Record DateTime : Type := {
  year : N;
  month : N;
  day : N;
  hour : N;
  minute : N;
  second : N
}.

(** A number written with at least [width] digits, zero-padded. *)
Definition zero_padded (width : nat) (n : N) : str :=
  let digits := of_N n in
  repeat 48%N (width - length digits) ++ digits.

(** [now.strftime('%Y-%m-%d %H:%M:%S')] *)
Definition strftime (now : DateTime) : str :=
  zero_padded 4 (year now) ++ lit "-" ++ zero_padded 2 (month now)
    ++ lit "-" ++ zero_padded 2 (day now) ++ lit " "
    ++ zero_padded 2 (hour now) ++ lit ":" ++ zero_padded 2 (minute now)
    ++ lit ":" ++ zero_padded 2 (second now).

Section Tools.

(** Opening a [DDGS()] session and calling [ddgs.text(query,
    max_results=..., region=..., safesearch=...)] on it. *)
Variable ddgs_text : str -> Z -> str -> str -> outcome (list Dict).

(** [json.dumps(formatted_results, indent=2)] *)
Variable json_dumps : list FormattedResult -> outcome str.

(** [datetime.now()], a read of the system clock. *)
Variable datetime_now : outcome DateTime.

(** The builtin [eval]; [py_eval] above is the model of it. *)
Variable eval : str -> outcome PyValue.

Definition format_result (result : Dict) : FormattedResult :=
  {| title := dict_get result (lit "title");
     body := dict_get result (lit "body");
     href := dict_get result (lit "href");
     hostname := dict_get result (lit "hostname") |}.

(** The parameter [time] is accepted and not used. *)
Definition web_search (query : str) (max_results : Z)
    (region safesearch : str) (time : option str) : outcome str :=
  Outcome.try_except
    (Outcome.bind (ddgs_text query max_results region safesearch)
       (fun results =>
          let formatted_results := map format_result results in
          json_dumps formatted_results))
    (fun e => Returned (lit "Error performing web search: " ++ e)).

(** No [try] in this one. *)
Definition get_current_time : outcome str :=
  Outcome.bind datetime_now
    (fun now => Returned (lit "Current time: " ++ strftime now)).

Definition allowed_chars : str := lit "0123456789+-*/()., ".

Definition rejection : str :=
  lit "Error: Only basic mathematical operations are allowed".

Definition calculate (expression : str) : outcome str :=
  Outcome.try_except
    (if negb (forallb (contains allowed_chars) expression)
     then Returned rejection
     else
       Outcome.bind (eval expression)
         (fun result =>
            Outcome.bind (format_value result)
              (fun shown => Returned (lit "Result: " ++ shown))))
    (fun e => Returned (lit "Error calculating expression: " ++ e)).

End Tools.

(** ** The constructor ([DeepAgent.__init__]) *)

(** The class attributes of [Config] the constructor reads. *)
Record Config : Type := {
  OLLAMA_BASE_URL : str;
  OLLAMA_MODEL : str;
  USE_LONGTERM_MEMORY : bool;
  CUSTOM_SYSTEM_PROMPT : option str
}.

(** The keyword arguments handed to [create_deep_agent]; the last two are
    present only with long-term memory ([InMemoryStore()] is an empty
    store). *)
Record AgentKwargs : Type := {
  kw_model : LLM;
  kw_tools : list Tool;
  kw_system_prompt : str;
  kw_store : option unit;
  kw_use_longterm_memory : option bool
}.

Definition web_search_tool : Tool := {| tool_name := lit "web_search" |}.
Definition get_current_time_tool : Tool :=
  {| tool_name := lit "get_current_time" |}.
Definition calculate_tool : Tool := {| tool_name := lit "calculate" |}.

Definition default_tools : list Tool :=
  [web_search_tool; get_current_time_tool; calculate_tool].

Section Constructor.

Variable config : Config.

(** The model client's constructor and the framework's agent factory. *)
Variable ChatOllama : str -> str -> N -> outcome LLM.
Variable create_deep_agent : AgentKwargs -> outcome Runtime.

(** The fixed text [_get_default_system_prompt] returns. *)
Variable default_system_prompt : str.

Definition or_else {A} (o : option A) (d : A) : A :=
  match o with Some a => a | None => d end.

(** The keyword arguments, once the model client exists. *)
Definition agent_kwargs (the_llm : LLM) (all_tools : list Tool)
    (system_prompt : option str) (longterm : bool) : AgentKwargs :=
  let system_prompt :=
    if negb (truthy_opt system_prompt) then
      if truthy_opt (CUSTOM_SYSTEM_PROMPT config)
      then or_else (CUSTOM_SYSTEM_PROMPT config) []
      else default_system_prompt
    else or_else system_prompt [] in
  {| kw_model := the_llm;
     kw_tools := all_tools;
     kw_system_prompt := system_prompt;
     kw_store := if longterm then Some tt else None;
     kw_use_longterm_memory := if longterm then Some true else None |}.

Definition __init__ (model_name' base_url' : option str)
    (tools' : option (list Tool)) (system_prompt : option str)
    (use_longterm_memory' show_tools' : option bool) : outcome DeepAgent :=
  let model_name := or_else model_name' (OLLAMA_MODEL config) in
  let base_url := or_else base_url' (OLLAMA_BASE_URL config) in
  let use_longterm_memory :=
    or_else use_longterm_memory' (USE_LONGTERM_MEMORY config) in
  let show_tools := or_else show_tools' false in
  Outcome.bind (ChatOllama model_name base_url 1%N)
    (fun the_llm =>
       let all_tools := default_tools ++ or_else tools' [] in
       Outcome.bind
         (create_deep_agent
            (agent_kwargs the_llm all_tools system_prompt
               use_longterm_memory))
         (fun the_agent =>
            Returned
              {| model_name := model_name;
                 base_url := base_url;
                 use_longterm_memory := use_longterm_memory;
                 show_tools := show_tools;
                 llm := the_llm;
                 tools := all_tools;
                 agent := the_agent |})).

End Constructor.

(** ** Vocabulary for the statements *)

Module Turn.

(** The message the relay inspects in a snapshot: the last one, when it is
    an assistant message. *)
Definition inspected (chunk : State) : option Message :=
  match chunk with
  | Some messages =>
      match Relay.final_of messages with
      | Some m => if Relay.isinstance m AIMessage then Some m else None
      | None => None
      end
  | None => None
  end.

Definition messages_of (chunk : State) : list Message :=
  match chunk with Some messages => messages | None => [] end.

(** The snapshots a stream hands over before it stops or raises. *)
Fixpoint snapshots (it : Stream) : list State :=
  match it with
  | Next chunk rest => chunk :: snapshots rest
  | _ => []
  end.

(** The stream that hands over [chunks] and then goes on as [ending]. *)
Fixpoint after (chunks : list State) (ending : Stream) : Stream :=
  match chunks with
  | [] => ending
  | chunk :: rest => Next chunk (after rest ending)
  end.

Fixpoint ends_normally (it : Stream) : bool :=
  match it with
  | Stop => true
  | Raises _ => false
  | Next _ rest => ends_normally rest
  end.

Definition has_name (tool_call : ToolCall) : bool :=
  match tc_name tool_call with Some _ => true | None => false end.

(** Every tool call of the inspected message carries key ["name"]. *)
Definition calls_named (chunk : State) : bool :=
  match inspected chunk with
  | Some m => forallb has_name (tool_calls m)
  | None => true
  end.

(** A turn in which nothing fails: the runtime's iterator stops by itself
    and no announced tool call lacks its name. *)
Definition undisturbed (it : Stream) : bool :=
  ends_normally it && forallb calls_named (snapshots it).

(** The tool calls announced before one without a name stops the loop. *)
Fixpoint named_prefix (calls : list ToolCall) : list ToolCall :=
  match calls with
  | [] => []
  | c :: rest => if has_name c then c :: named_prefix rest else []
  end.

Definition is_named (msg : Message) : bool := truthy_opt (name msg).

(** The fragments one snapshot gives rise to when nothing fails. *)
Definition invocation_of (tool_call : ToolCall) : Fragment :=
  ToolInvocation
    (match tc_name tool_call with Some n => n | None => [] end)
    (Relay.render_args
       (match tc_args tool_call with Some a => a | None => [] end)).

Definition output_of (msg : Message) : Fragment :=
  ToolOutput (match name msg with Some n => n | None => [] end)
    (Relay.preview (content msg)).

Definition announcements (chunk : State) : list Fragment :=
  match inspected chunk with
  | Some m =>
      map invocation_of (tool_calls m)
        ++ map output_of (filter is_named (messages_of chunk))
  | None => []
  end.

Definition whole_content (chunk : State) : list Fragment :=
  match inspected chunk with
  | Some m => if truthy (content m) then [Content (content m)] else []
  | None => []
  end.

Definition fragments_of (show : bool) (chunk : State) : list Fragment :=
  (if show then announcements chunk else []) ++ whole_content chunk.

Definition is_tool (f : Fragment) : bool :=
  is_tool_invocation f || is_tool_output f.

(** The inspected message, if there is one, has empty content. *)
Definition silent (chunk : State) : bool :=
  match inspected chunk with
  | Some m => negb (truthy (content m))
  | None => true
  end.

Definition contents (fs : list Fragment) : list str :=
  flat_map (fun f => match f with Content s => [s] | _ => [] end) fs.

(** The text one snapshot contributes: the whole content of the inspected
    message, when it is not empty. *)
Definition shown_text (chunk : State) : list str :=
  match inspected chunk with
  | Some m => if truthy (content m) then [content m] else []
  | None => []
  end.

(** How many tool calls and how many named messages a snapshot announces. *)
Definition calls_in (chunk : State) : nat :=
  match inspected chunk with
  | Some m => length (tool_calls m)
  | None => 0
  end.

Definition results_in (chunk : State) : nat :=
  match inspected chunk with
  | Some _ => length (filter is_named (messages_of chunk))
  | None => 0
  end.

End Turn.

(** ** Sample values *)

Module Sample.

Definition human (s : string) : Message :=
  {| msg_class := HumanMessage; content := lit s; name := None;
     tool_calls := [] |}.

Definition assistant (s : string) (calls : list ToolCall) : Message :=
  {| msg_class := AIMessage; content := lit s; name := None;
     tool_calls := calls |}.

Definition tool_result (tool s : string) : Message :=
  {| msg_class := ToolMessage; content := lit s; name := Some (lit tool);
     tool_calls := [] |}.

Definition call (tool : string) (args : list (string * string)) : ToolCall :=
  {| tc_name := Some (lit tool);
     tc_args := Some (map (fun kv => (lit (fst kv), lit (snd kv))) args) |}.

(** A runtime whose streaming calls hand over [it] and whose blocking calls
    answer [response]. *)
Definition runtime (it : Stream) (response : outcome State) : Runtime :=
  {| invoke := fun _ => response;
     ainvoke := fun _ => response;
     stream := fun _ => it;
     astream := fun _ => it |}.

Definition session (show : bool) (rt : Runtime) : DeepAgent :=
  {| model_name := lit "llama3";
     base_url := lit "http://localhost:11434";
     use_longterm_memory := false;
     show_tools := show;
     llm := {| llm_model := lit "llama3";
               llm_base_url := lit "http://localhost:11434";
               llm_temperature_tenths := 1 |};
     tools := default_tools;
     agent := rt |}.

Definition streaming (show : bool) (it : Stream) : DeepAgent :=
  session show (runtime it (Raised (lit "not used"))).

Definition blocking (response : outcome State) : DeepAgent :=
  session false (runtime Stop response).

(** Scenario B: the assistant's text arrives as "Hel", then "Hello". *)
Definition hel_hello : Stream :=
  Next (Some [human "hi"; assistant "Hel" []])
    (Next (Some [human "hi"; assistant "Hello" []]) Stop).

(** A turn with two rounds of tool use. *)
Definition calc_call : ToolCall :=
  call "calculate" [("expression"%string, "2 + 2 * 3"%string)].
Definition time_call : ToolCall := call "get_current_time" [].

Definition round1 : list Message :=
  [human "what is 2 + 2 * 3, and what time is it?";
   assistant EmptyString [calc_call]].
Definition round2 : list Message :=
  round1 ++ [tool_result "calculate" "Result: 8"].
Definition round3 : list Message :=
  round2 ++ [assistant EmptyString [time_call]].
Definition round4 : list Message :=
  round3
    ++ [tool_result "get_current_time" "Current time: 2024-05-01 12:00:00"].
Definition round5 : list Message := round4 ++ [assistant "It is 8." []].

Definition two_rounds : Stream :=
  Next (Some round1) (Next (Some round2) (Next (Some round3)
    (Next (Some round4) (Next (Some round5) Stop)))).

(** The runtime delivers the same snapshot twice. *)
Definition redelivered : Stream :=
  Next (Some round1) (Next (Some round1) Stop).

(** Text first, then a tool round, then an empty final answer. *)
Definition text_then_silence : Stream :=
  Next (Some [human "q"; assistant "Let me check." [calc_call]])
    (Next (Some [human "q"; assistant "Let me check." [calc_call];
                 tool_result "calculate" "Result: 8"; assistant EmptyString []])
       Stop).

(** A model client and a framework that accept whatever they are given. *)
Definition config : Config :=
  {| OLLAMA_BASE_URL := lit "http://localhost:11434";
     OLLAMA_MODEL := lit "llama3";
     USE_LONGTERM_MEMORY := false;
     CUSTOM_SYSTEM_PROMPT := None |}.

Definition accepting_ChatOllama (model base : str) (tenths : N)
  : outcome LLM :=
  Returned {| llm_model := model; llm_base_url := base;
              llm_temperature_tenths := tenths |}.

Definition accepting_create_deep_agent (kwargs : AgentKwargs)
  : outcome Runtime :=
  Returned (runtime Stop (Returned None)).

(** A caller-supplied tool that is also called [calculate]. *)
Definition my_calculate : Tool := {| tool_name := lit "calculate" |}.

(** An evaluator and a clock that fail. *)
Definition failing_eval (expression : str) : outcome PyValue :=
  Raised (lit "division by zero").

Definition failing_clock : outcome DateTime :=
  Raised (lit "timestamp out of range for platform time_t").

Definition long_output : str := repeat 120%N 250.
Definition short_output : str := repeat 120%N 80.

End Sample.

(** ** More vocabulary for the streaming relay *)

Module Trace.

(** The stream without the snapshots the relay passes over: those without a
    message list, with an empty one, or whose last message is not an
    assistant message. *)
Fixpoint prune (it : Stream) : Stream :=
  match it with
  | Stop => Stop
  | Raises e => Raises e
  | Next chunk rest =>
      match Turn.inspected chunk with
      | Some _ => Next chunk (prune rest)
      | None => prune rest
      end
  end.

(** The last element of a list of texts, if there is one. *)
Fixpoint last_text (l : list str) : option str :=
  match l with
  | [] => None
  | [s] => Some s
  | _ :: rest => last_text rest
  end.

(** The same message under another class. *)
Definition as_class (c : MessageClass) (m : Message) : Message :=
  {| msg_class := c; content := content m; name := name m;
     tool_calls := tool_calls m |}.

End Trace.

(** Two search hits that agree on the four keys. *)
Definition same_fields (hit hit' : Dict) : Prop :=
  dict_get hit (lit "title") = dict_get hit' (lit "title") /\
  dict_get hit (lit "body") = dict_get hit' (lit "body") /\
  dict_get hit (lit "href") = dict_get hit' (lit "href") /\
  dict_get hit (lit "hostname") = dict_get hit' (lit "hostname").

(** A search provider that answers every query with the same hits. *)
Definition fixed_hits (hits : list Dict) (query : str) (max_results : Z)
    (region safesearch : str) : outcome (list Dict) :=
  Returned hits.

(** ** More builtins *)

Module Py.

(** The characters [str.isspace] accepts. *)
Definition whitespace : list char :=
  [9; 10; 11; 12; 13; 28; 29; 30; 31; 32; 133; 160; 5760;
   8192; 8193; 8194; 8195; 8196; 8197; 8198; 8199; 8200; 8201; 8202;
   8232; 8233; 8239; 8287; 12288]%N.

Definition isspace (c : char) : bool := existsb (N.eqb c) whitespace.

Fixpoint lstrip (s : str) : str :=
  match s with
  | [] => []
  | c :: rest => if isspace c then lstrip rest else s
  end.

Definition rstrip (s : str) : str := rev (lstrip (rev s)).

(** [s.strip()] *)
Definition strip (s : str) : str := rstrip (lstrip s).

Definition is_ascii (c : char) : bool := (c <? 128)%N.

Definition ascii_lower (c : char) : char :=
  if (65 <=? c)%N && (c <=? 90)%N then (c + 32)%N else c.

(** [s.lower()]: on ASCII text the letters [A] to [Z] go to [a] to [z];
    text with other characters is left to the parameter. *)
Definition lower (beyond : str -> str) (s : str) : str :=
  if forallb is_ascii s then map ascii_lower s else beyond s.

(** [a == b] on strings. *)
Definition eqb (a b : str) : bool :=
  if list_eq_dec N.eq_dec a b then true else false.

(** [int(s)]: a run of 1 to 4300 ASCII digits is read in base ten; anything
    else is left to the parameter. *)
Definition int (beyond : str -> outcome Z) (s : str) : outcome Z :=
  if truthy s && forallb IntExpr.is_digit s && (length s <=? 4300)
  then Returned
         (Z.of_N (fold_left (fun acc c => (10 * acc + (c - 48))%N) s 0%N))
  else beyond s.

(** [str(b)] for a boolean. *)
Definition of_bool (b : bool) : str := if b then lit "True" else lit "False".

(** [c * n] for a one-character string. *)
Definition times (c : string) (n : nat) : str := concat (repeat (lit c) n).

End Py.

(** ** Configuration ([src/core/config.py]) *)

(** Everything the class [Config] holds: the attributes the constructor
    reads, and the web-search settings. *)
Record Settings : Type := {
  core : Config;
  WEB_SEARCH_MAX_RESULTS : Z;
  WEB_SEARCH_REGION : str;
  WEB_SEARCH_SAFESEARCH : str
}.

Module ConfigModule.

(** The process environment after [load_dotenv()]: [os.getenv(name)]. *)
Definition Environ : Type := str -> option str.

(** [os.getenv(name, default)] *)
Definition getenv (env : Environ) (name default : str) : str :=
  match env name with Some v => v | None => default end.

Definition base_url_required : exn :=
  lit "OLLAMA_BASE_URL environment variable is required".
Definition model_required : exn :=
  lit "OLLAMA_MODEL environment variable is required".

(** The body of [class Config], run when the module is imported. *)
Definition class_body (lower_beyond : str -> str)
    (int_beyond : str -> outcome Z) (env : Environ) : outcome Settings :=
  let OLLAMA_BASE_URL := env (lit "OLLAMA_BASE_URL") in
  let OLLAMA_MODEL := env (lit "OLLAMA_MODEL") in
  if negb (truthy_opt OLLAMA_BASE_URL) then Raised base_url_required
  else if negb (truthy_opt OLLAMA_MODEL) then Raised model_required
  else
    let USE_LONGTERM_MEMORY :=
      Py.eqb
        (Py.lower lower_beyond
           (getenv env (lit "USE_LONGTERM_MEMORY") (lit "false")))
        (lit "true") in
    let CUSTOM_SYSTEM_PROMPT := env (lit "CUSTOM_SYSTEM_PROMPT") in
    Outcome.bind
      (Py.int int_beyond (getenv env (lit "WEB_SEARCH_MAX_RESULTS") (lit "5")))
      (fun max_results =>
         Returned
           {| core :=
                {| OLLAMA_BASE_URL := or_else OLLAMA_BASE_URL [];
                   OLLAMA_MODEL := or_else OLLAMA_MODEL [];
                   USE_LONGTERM_MEMORY := USE_LONGTERM_MEMORY;
                   CUSTOM_SYSTEM_PROMPT := CUSTOM_SYSTEM_PROMPT |};
              WEB_SEARCH_MAX_RESULTS := max_results;
              WEB_SEARCH_REGION :=
                getenv env (lit "WEB_SEARCH_REGION") (lit "us-en");
              WEB_SEARCH_SAFESEARCH :=
                getenv env (lit "WEB_SEARCH_SAFESEARCH") (lit "moderate") |}).

Definition validation_failed : str := lit "Configuration validation failed:".

(** [Config.validate()]; [requests_get url] is the status code of
    [requests.get(url, timeout=5)], or its exception. *)
Definition validate (requests_get : str -> outcome Z) (cfg : Config)
  : outcome bool :=
  Outcome.bind
    (Outcome.try_except
       (Outcome.bind (requests_get (OLLAMA_BASE_URL cfg ++ lit "/api/tags"))
          (fun status_code =>
             Returned
               (if negb (status_code =? 200)%Z
                then [lit "Ollama server not accessible at "
                        ++ OLLAMA_BASE_URL cfg]
                else [])))
       (fun e => Returned [lit "Cannot connect to Ollama server: " ++ e]))
    (fun errors =>
       if Relay.truthy_list errors
       then Raised (validation_failed ++ nl ++ join nl errors)
       else Returned true).

(** [print(x)] writes [x] and a line feed. *)
Definition line (s : str) : str := s ++ nl.

(** [Config.print_config()], as the texts written to standard output. *)
Definition print_config (settings : Settings) : list str :=
  [line (lit "Deep Agent with Ollama Configuration:");
   line (Py.times "=" 30);
   line (lit "Ollama Base URL: " ++ OLLAMA_BASE_URL (core settings));
   line (lit "Ollama Model: " ++ OLLAMA_MODEL (core settings));
   line (lit "Use Long-term Memory: "
           ++ Py.of_bool (USE_LONGTERM_MEMORY (core settings)));
   line (lit "Web Search Max Results: "
           ++ of_Z (WEB_SEARCH_MAX_RESULTS settings));
   line (lit "Web Search Region: " ++ WEB_SEARCH_REGION settings);
   line (lit "Web Search SafeSearch: " ++ WEB_SEARCH_SAFESEARCH settings)]
    ++ (if truthy_opt (CUSTOM_SYSTEM_PROMPT (core settings))
        then [line (lit "Custom System Prompt: "
                      ++ firstn 100
                           (or_else (CUSTOM_SYSTEM_PROMPT (core settings)) [])
                      ++ lit "...")]
        else [])
    ++ [line (Py.times "=" 30)].

End ConfigModule.

(** ** The command line ([src/cli.py]) *)

(** What happens at the prompt of [input()]: the user types a line;
    [input()] raises [KeyboardInterrupt] (the user's Ctrl-C; under
    [asyncio.run] of Python 3.11 and later, where the first Ctrl-C only
    cancels the running task, the second one); or the input is at its end,
    in which case every further [input()] raises [EOFError]. *)
Inductive Script : Type :=
| Typed (raw : str) (rest : Script)
| CtrlC
| Eof.

(** How a run ends: with an exit status; never, writing [cycle] over and
    over; or through the handler of [KeyboardInterrupt], after which the
    exit status is the one [asyncio.run] decides on (0 up to Python 3.10;
    from 3.11 on it raises [KeyboardInterrupt] for the cancelled task, and
    the status is 130). *)
Inductive Ending : Type :=
| Exit (status : Z)
| Spins (cycle : list str)
| Interrupted.

(** The command line arguments; [arg_model] and [arg_base_url] are [None]
    when the option is absent and the parser puts in its default. *)
Record Args : Type := {
  arg_query : option str;
  arg_model : option str;
  arg_base_url : option str;
  arg_no_stream : bool;
  arg_show_tools : bool;
  arg_config : bool;
  arg_validate : bool
}.

(** What [parser.parse_args()] does with the command line: it returns the
    arguments, prints the help text and exits with status 0, or reports a
    usage error and exits with status 2. *)
Inductive Parse : Type :=
| Parsed (args : Args)
| HelpShown (help : str)
| UsageError.

(** Whether an iteration of the interactive loop goes on or leaves it. *)
Inductive Control : Type :=
| Continue
| Break.

Module Cli.

Local Open Scope gen_scope.

Definition robot : char := 129302%N.          (* U+1F916 *)
Definition speech : char := 128172%N.         (* U+1F4AC *)
Definition bust : char := 128100%N.           (* U+1F464 *)
Definition wave : char := 128075%N.           (* U+1F44B *)
Definition cross : char := 10060%N.           (* U+274C *)
Definition glass : char := 128269%N.          (* U+1F50D *)
Definition arrows : char := 128260%N.         (* U+1F504 *)
Definition tick : char := 9989%N.             (* U+2705 *)

(** [print(x)] and [print(x, end="")] as writes to standard output. *)
Definition print (s : str) : Gen.t str unit := Gen.yield (s ++ nl).
Definition print_end (s : str) : Gen.t str unit := Gen.yield s.
Definition print_all (lines : list str) : Gen.t str unit :=
  Gen.for_each lines (fun l => Gen.yield l).

Definition print_banner : Gen.t str unit :=
  print ([robot] ++ lit " Deep Agent with Ollama CLI") ;;
  print (Py.times "=" 50).

(** [async for chunk in agent.astream_chat(...): print(chunk, end="")]: the
    texts are written as they are yielded; an exception of the generator is
    an exception of the loop. *)
Definition print_chunks (chunks : Gen.t Fragment unit) : Gen.t str unit :=
  Gen.for_each (Gen.yielded chunks) (fun f => print_end (text f)) ;;
  match Gen.finish chunks with
  | Returned _ => Gen.ret tt
  | Raised e => Gen.raise e
  end.

(** A call that returns or raises, inside code that prints. *)
Definition call {A} (c : outcome A) : Gen.t str A :=
  match c with
  | Returned a => Gen.ret a
  | Raised e => Gen.raise e
  end.

(** The same, whatever the code writes. *)
Definition call_in {Y A} (c : outcome A) : Gen.t Y A :=
  match c with
  | Returned a => Gen.ret a
  | Raised e => Gen.raise e
  end.

Definition prompt : str := nl ++ [bust] ++ lit " You: ".
Definition goodbye : str := [wave] ++ lit " Goodbye!".
Definition eof_error : exn := lit "EOF when reading a line".

Definition help_lines : list str :=
  [lit "Available commands:";
   lit "- quit/exit/q: Exit the chat";
   lit "- help: Show this help message";
   lit "- config: Show current configuration";
   lit "- Any other text: Chat with the agent"].

Section WithSettings.

Variable lower_beyond : str -> str.
Variable settings : Settings.

(** [user_input.lower() in ['quit', 'exit', 'q']] *)
Definition is_quit (user_input : str) : bool :=
  existsb (Py.eqb (Py.lower lower_beyond user_input))
    [lit "quit"; lit "exit"; lit "q"].

Definition is_help (user_input : str) : bool :=
  Py.eqb (Py.lower lower_beyond user_input) (lit "help").

Definition is_config (user_input : str) : bool :=
  Py.eqb (Py.lower lower_beyond user_input) (lit "config").

(** The body of the [try] in the loop of [interactive_mode], from the point
    where [input()] has returned [raw], with its [except Exception]. *)
Definition iteration (agent : DeepAgent) (raw : str) : Gen.t str Control :=
  Gen.try_except
    (let user_input := Py.strip raw in
     if is_quit user_input then
       print goodbye ;; Gen.ret Break
     else if is_help user_input then
       Gen.for_each help_lines print ;; Gen.ret Continue
     else if is_config user_input then
       print_all (ConfigModule.print_config settings) ;; Gen.ret Continue
     else if negb (truthy user_input) then
       Gen.ret Continue
     else
       print_end ([robot] ++ lit " Agent: ") ;;
       print_chunks (astream_chat agent user_input) ;;
       print [] ;;
       Gen.ret Continue)
    (fun e => print (nl ++ [cross] ++ lit " Error: " ++ e) ;; Gen.ret Continue).

(** [while True:] over what the user does. *)
Fixpoint loop (agent : DeepAgent) (script : Script) : list str * Ending :=
  match script with
  | Typed raw rest =>
      match iteration agent raw with
      | (written, Returned Break) => (prompt :: written, Exit 0)
      | (written, _) =>
          let (later, ending) := loop agent rest in
          (prompt :: written ++ later, ending)
      end
  | CtrlC => ([prompt; nl ++ goodbye ++ nl], Interrupted)
  | Eof =>
      ([], Spins [prompt; nl ++ [cross] ++ lit " Error: " ++ eof_error ++ nl])
  end.

Definition interactive_mode (agent : DeepAgent) (script : Script)
  : list str * Ending :=
  let (written, ending) := loop agent script in
  ([[speech] ++ lit " Interactive Chat Mode" ++ nl;
    lit "Type 'quit' to exit, 'help' for commands" ++ nl;
    Py.times "-" 30 ++ nl] ++ written, ending).

Definition single_query_mode (agent : DeepAgent) (query : str) (stream : bool)
  : Gen.t str unit :=
  print ([glass] ++ lit " Query: " ++ query) ;;
  print (Py.times "-" 30) ;;
  Gen.try_except
    (if stream then
       print_end ([robot] ++ lit " Response: ") ;;
       print_chunks (astream_chat agent query) ;;
       print []
     else
       response <- call (achat agent query) ;;
       print ([robot] ++ lit " Response: " ++ response))
    (fun e => print ([cross] ++ lit " Error: " ++ e)).

(** The outside world of [main].  [main] below is the function from
    [print_banner()] on, for the arguments [parser.parse_args()] returned
    and the settings the import of [config] loaded; [program] further down
    puts the import and the parsing in front. *)
Variable requests_get : str -> outcome Z.
Variable ChatOllama : str -> str -> N -> outcome LLM.
Variable create_deep_agent : AgentKwargs -> outcome Runtime.
Variable default_system_prompt : str.

Definition main (args : Args) (script : Script) : list str * Ending :=
  let banner := Gen.yielded print_banner in
  if arg_config args then
    (banner ++ ConfigModule.print_config settings, Exit 0)
  else if arg_validate args then
    match ConfigModule.validate requests_get (core settings) with
    | Returned _ =>
        (banner ++ [[tick] ++ lit " Configuration is valid" ++ nl], Exit 0)
    | Raised e =>
        (banner ++ [[cross] ++ lit " Configuration validation failed: "
                      ++ e ++ nl], Exit 1)
    end
  else
    let model := or_else (arg_model args) (OLLAMA_MODEL (core settings)) in
    let base := or_else (arg_base_url args) (OLLAMA_BASE_URL (core settings)) in
    let announced :=
      banner ++ [[arrows] ++ lit " Initializing agent with model: "
                   ++ model ++ nl] in
    match __init__ (core settings) ChatOllama create_deep_agent
            default_system_prompt (Some model) (Some base) None
            (CUSTOM_SYSTEM_PROMPT (core settings))
            (Some (USE_LONGTERM_MEMORY (core settings)))
            (Some (arg_show_tools args)) with
    | Raised e =>
        (announced ++ [[cross] ++ lit " Failed to initialize agent: "
                         ++ e ++ nl], Exit 1)
    | Returned agent =>
        let ready :=
          announced
            ++ [[tick] ++ lit " Agent initialized successfully" ++ nl] in
        if truthy_opt (arg_query args) then
          (ready ++ Gen.yielded
                      (single_query_mode agent (or_else (arg_query args) [])
                         (negb (arg_no_stream args))),
           Exit 0)
        else
          let (written, ending) := interactive_mode agent script in
          (ready ++ written, ending)
    end.

End WithSettings.


(** [cli.py] run as a script: the imports at its top, of which the one of
    [config] raises when the class body does (an uncaught exception:
    nothing on standard output, status 1), then [main()], which starts with
    [parser.parse_args()]. *)
Definition program (lower_beyond : str -> str)
    (requests_get : str -> outcome Z)
    (ChatOllama : str -> str -> N -> outcome LLM)
    (create_deep_agent : AgentKwargs -> outcome Runtime)
    (default_system_prompt : str)
    (imported : outcome Settings) (parsed : Parse) (script : Script)
  : list str * Ending :=
  match imported with
  | Raised _ => ([], Exit 1)
  | Returned settings =>
      match parsed with
      | Parsed args =>
          main lower_beyond settings requests_get ChatOllama
            create_deep_agent default_system_prompt args script
      | HelpShown help => ([help], Exit 0)
      | UsageError => ([], Exit 2)
      end
  end.

(** Whether the session is left through the handler of
    [KeyboardInterrupt]. *)
Fixpoint interrupted (lower_beyond : str -> str) (script : Script) : bool :=
  match script with
  | Typed raw rest =>
      if is_quit lower_beyond (Py.strip raw) then false
      else interrupted lower_beyond rest
  | CtrlC => true
  | Eof => false
  end.

(** Whether the session comes to the end of the input before the user
    leaves it. *)
Fixpoint reaches_eof (lower_beyond : str -> str) (script : Script) : bool :=
  match script with
  | Typed raw rest =>
      if is_quit lower_beyond (Py.strip raw) then false
      else reaches_eof lower_beyond rest
  | CtrlC => false
  | Eof => true
  end.

(** What the loop writes forever once the input is at its end. *)
Definition eof_cycle : list str :=
  [prompt; nl ++ [cross] ++ lit " Error: " ++ eof_error ++ nl].

End Cli.

(** ** More sample values *)

Module Fixture.

(** An environment with the two required variables and the memory flag. *)
Definition env (flag : string) : ConfigModule.Environ :=
  fun name =>
    if Py.eqb name (lit "OLLAMA_BASE_URL")
    then Some (lit "http://localhost:11434")
    else if Py.eqb name (lit "OLLAMA_MODEL") then Some (lit "llama3")
    else if Py.eqb name (lit "USE_LONGTERM_MEMORY") then Some (lit flag)
    else None.

(** An environment in which nothing is set. *)
Definition empty_env : ConfigModule.Environ := fun _ => None.

Definition settings : Settings :=
  {| core := Sample.config;
     WEB_SEARCH_MAX_RESULTS := 5;
     WEB_SEARCH_REGION := lit "us-en";
     WEB_SEARCH_SAFESEARCH := lit "moderate" |}.

(** Builtins that are never reached on ASCII input. *)
Definition no_lower (s : str) : str := s.
Definition no_int (s : str) : outcome Z :=
  Raised (lit "invalid literal for int() with base 10").

(** A server that answers with a status, and one that cannot be reached. *)
Definition answering (status : Z) (url : str) : outcome Z := Returned status.
Definition unreachable (url : str) : outcome Z :=
  Raised (lit "Connection refused").

(** A model client that cannot be built. *)
Definition rejecting_ChatOllama (model base : str) (tenths : N)
  : outcome LLM :=
  Raised (lit "model not found").

Definition args : Args :=
  {| arg_query := None; arg_model := None; arg_base_url := None;
     arg_no_stream := false; arg_show_tools := false;
     arg_config := false; arg_validate := false |}.

Definition validate_args : Args :=
  {| arg_query := None; arg_model := None; arg_base_url := None;
     arg_no_stream := false; arg_show_tools := false;
     arg_config := false; arg_validate := true |}.

(** A stand-in for the serialiser: one line per result. *)
Definition one_line_each (results : list FormattedResult) : outcome str :=
  Returned
    (join nl
       (map (fun r => title r ++ lit " | " ++ body r ++ lit " | " ++ href r
                        ++ lit " | " ++ hostname r) results)).

(** A session: a greeting, a blank line, help, then the user leaves. *)
Definition chatty : Script :=
  Typed (lit "  Hello there ")
    (Typed (lit "   ") (Typed (lit "HELP") (Typed (lit " Quit ") Eof))).

(** A session whose input ends without the user leaving. *)
Definition piped : Script := Typed (lit "what time is it?") Eof.

End Fixture.

(** ** The setup script ([src/setup.py]) *)

(** What the script does to the outside world, in order. *)
Inductive SetupEvent : Type :=
| Printed (s : str)
| Ran (command : str)
| Requested (url : str).

(** [subprocess.run(command, shell=True, check=True, ...)]: it completes,
    raises [CalledProcessError] (with its text and the captured output), or
    raises something else. *)
Inductive Checked : Type :=
| Completed
| CalledProcessError (shown stdout stderr : str)
| Broke (e : exn).

(** The completed process of [subprocess.run] without [check]. *)
Record Process : Type := {
  returncode : Z;
  process_stdout : str
}.

(** The answer to [requests.get]: the status code, and what
    [response.json()] gives: the entry under ["models"], if any, as a list
    of dictionaries of which only the ["name"] matters. *)
Record Response : Type := {
  status_code : Z;
  json_models : outcome (option (list (option str)))
}.

(** How the script ends when it does not raise: it returns, or it calls
    [sys.exit]. *)
Inductive SetupEnd : Type :=
| Done
| Exited (status : Z).

Module Setup.

Local Open Scope gen_scope.

Definition inbox : char := 128229%N.          (* U+1F4E5 *)
Definition rocket : char := 128640%N.         (* U+1F680 *)
Definition package : char := 128230%N.        (* U+1F4E6 *)
Definition party : char := 127881%N.          (* U+1F389 *)
Definition books : char := 128218%N.          (* U+1F4DA *)
Definition warning : str := [9888; 65039]%N.  (* U+26A0 U+FE0F *)

Definition tags_url : str := lit "http://localhost:11434/api/tags".

Definition print (s : str) : Gen.t SetupEvent unit := Gen.yield (Printed s).

Section World.

Variable run_checked : str -> Checked.
Variable run_plain : str -> outcome Process.
Variable requests_get : str -> outcome Response.

Definition run_command (command description : str)
  : Gen.t SetupEvent bool :=
  print ([Cli.arrows] ++ lit " " ++ description ++ lit "...") ;;
  Gen.yield (Ran command) ;;
  match run_checked command with
  | Completed =>
      print ([Cli.tick] ++ lit " " ++ description
               ++ lit " completed successfully") ;;
      Gen.ret true
  | CalledProcessError shown stdout stderr =>
      print ([Cli.cross] ++ lit " " ++ description ++ lit " failed: "
               ++ shown) ;;
      (if truthy stdout then print (lit "STDOUT: " ++ stdout)
       else Gen.ret tt) ;;
      (if truthy stderr then print (lit "STDERR: " ++ stderr)
       else Gen.ret tt) ;;
      Gen.ret false
  | Broke e => Gen.raise e
  end.

Definition check_ollama_installed : Gen.t SetupEvent bool :=
  print ([Cli.glass] ++ lit " Checking Ollama installation...") ;;
  Gen.try_except
    (Gen.yield (Ran (lit "ollama --version")) ;;
     match run_plain (lit "ollama --version") with
     | Returned result =>
         if (returncode result =? 0)%Z then
           print ([Cli.tick] ++ lit " Ollama is installed: "
                    ++ Py.strip (process_stdout result)) ;;
           Gen.ret true
         else
           print ([Cli.cross] ++ lit " Ollama command not found") ;;
           Gen.ret false
     | Raised e => Gen.raise e
     end)
    (fun e =>
       print ([Cli.cross] ++ lit " Error checking Ollama: " ++ e) ;;
       Gen.ret false).

Definition check_ollama_server : Gen.t SetupEvent bool :=
  print ([Cli.glass] ++ lit " Checking Ollama server...") ;;
  Gen.try_except
    (Gen.yield (Requested tags_url) ;;
     match requests_get tags_url with
     | Returned response =>
         if (status_code response =? 200)%Z then
           print ([Cli.tick] ++ lit " Ollama server is running") ;;
           Gen.ret true
         else
           print ([Cli.cross] ++ lit " Ollama server not responding") ;;
           Gen.ret false
     | Raised e => Gen.raise e
     end)
    (fun e =>
       print ([Cli.cross] ++ lit " Ollama server not accessible: " ++ e) ;;
       Gen.ret false).

(** [[model["name"] for model in models]]: an entry without the key raises
    [KeyError('name')]. *)
Fixpoint names_of (models : list (option str)) : outcome (list str) :=
  match models with
  | [] => Returned []
  | Some n :: rest =>
      match names_of rest with
      | Returned ns => Returned (n :: ns)
      | Raised e => Raised e
      end
  | None :: _ => Raised Relay.key_error
  end.

Definition check_model_available (model_name : str)
  : Gen.t SetupEvent bool :=
  print ([Cli.glass] ++ lit " Checking if model '" ++ model_name
           ++ lit "' is available...") ;;
  Gen.try_except
    (Gen.yield (Requested tags_url) ;;
     response <- Cli.call_in (requests_get tags_url) ;;
     if (status_code response =? 200)%Z then
       found <- Cli.call_in (json_models response) ;;
       let models := or_else found [] in
       model_names <- Cli.call_in (names_of models) ;;
       if existsb (Py.eqb model_name) model_names then
         print ([Cli.tick] ++ lit " Model '" ++ model_name
                  ++ lit "' is available") ;;
         Gen.ret true
       else
         print ([Cli.cross] ++ lit " Model '" ++ model_name
                  ++ lit "' not found") ;;
         print (lit "Available models: " ++ join (lit ", ") model_names) ;;
         Gen.ret false
     else
       print ([Cli.cross] ++ lit " Could not fetch model list") ;;
       Gen.ret false)
    (fun e =>
       print ([Cli.cross] ++ lit " Error checking models: " ++ e) ;;
       Gen.ret false).

Definition pull_command (model_name : str) : str :=
  lit "ollama pull " ++ model_name.

Definition pull_model (model_name : str) : Gen.t SetupEvent bool :=
  print ([inbox] ++ lit " Pulling model '" ++ model_name ++ lit "'...") ;;
  run_command (pull_command model_name) (lit "Pulling model " ++ model_name).

(** [sys.version_info < (3, 8)] *)
Definition too_old (major minor : N) : bool :=
  (major <? 3)%N || ((major =? 3)%N && (minor <? 8)%N).

Definition farewell : Gen.t SetupEvent SetupEnd :=
  print (nl ++ [Cli.tick] ++ lit " Setup completed successfully!") ;;
  print (nl ++ [party]
           ++ lit " You can now run the Deep Agent with Ollama examples:") ;;
  print (lit "  uv run python examples/cli.py") ;;
  print (nl ++ [books] ++ lit " Available modes:") ;;
  print (lit "  - cli: Command-line interface example") ;;
  print (lit "  - interactive: Interactive chat mode") ;;
  Gen.ret Done.

(** [main()]; [imported] is what importing [config] gives: the settings, or
    the exception of the class body. *)
Definition main (major minor : N) (imported : outcome Settings)
  : Gen.t SetupEvent SetupEnd :=
  print ([rocket] ++ lit " Deep Agent with Ollama Setup") ;;
  print (Py.times "=" 50) ;;
  if too_old major minor then
    print ([Cli.cross] ++ lit " Python 3.8 or higher is required") ;;
    Gen.ret (Exited 1)
  else
    print ([Cli.tick] ++ lit " Python " ++ of_N major ++ lit "."
             ++ of_N minor ++ lit " detected") ;;
    print (nl ++ [package] ++ lit " Installing dependencies...") ;;
    synced <- run_command (lit "uv sync")
                (lit "Installing Python dependencies") ;;
    if negb synced then
      print ([Cli.cross] ++ lit " Failed to install dependencies") ;;
      Gen.ret (Exited 1)
    else
      print (nl ++ [wrench] ++ lit " Checking Ollama setup...") ;;
      installed <- check_ollama_installed ;;
      if negb installed then
        print (nl ++ [Cli.cross]
                 ++ lit " Ollama is not installed. Please install it first:") ;;
        print (lit "Visit: https://ollama.ai/download") ;;
        Gen.ret (Exited 1)
      else
        running <- check_ollama_server ;;
        if negb running then
          print (nl ++ warning
                   ++ lit "  Ollama server is not running. Please start it:") ;;
          print (lit "Run: ollama serve") ;;
          Gen.ret (Exited 1)
        else
          settings <- Cli.call_in imported ;;
          let configured_model := OLLAMA_MODEL (core settings) in
          available <- check_model_available configured_model ;;
          if negb available then
            print (nl ++ [inbox] ++ lit " Model '" ++ configured_model
                     ++ lit "' not found. Pulling it...") ;;
            pulled <- pull_model configured_model ;;
            if negb pulled then
              print ([Cli.cross] ++ lit " Failed to pull model") ;;
              Gen.ret (Exited 1)
            else farewell
          else farewell.

End World.

End Setup.

(** *** Vocabulary for the setup script *)

(** The shell commands of a trace, in the order in which they were run. *)
Definition commands_of (trace : list SetupEvent) : list str :=
  flat_map (fun ev => match ev with Ran c => [c] | _ => [] end) trace.

(** The addresses a trace sent requests to. *)
Definition requests_of (trace : list SetupEvent) : list str :=
  flat_map (fun ev => match ev with Requested u => [u] | _ => [] end) trace.

(** The texts a trace printed. *)
Definition printed_of (trace : list SetupEvent) : list str :=
  flat_map (fun ev => match ev with Printed t => [t] | _ => [] end) trace.

(** [ollama --version] ran and ended with status 0. *)
Definition ollama_installed (run_plain : str -> outcome Process) : bool :=
  match run_plain (lit "ollama --version") with
  | Returned result => (returncode result =? 0)%Z
  | Raised _ => false
  end.

(** The local server answered the request for its tags with status 200. *)
Definition server_up (requests_get : str -> outcome Response) : bool :=
  match requests_get Setup.tags_url with
  | Returned response => (status_code response =? 200)%Z
  | Raised _ => false
  end.

(** The local server lists the model: status 200, a readable list in which
    every entry has a name, and the model among the names. *)
Definition model_available (requests_get : str -> outcome Response)
    (model_name : str) : bool :=
  match requests_get Setup.tags_url with
  | Returned response =>
      (status_code response =? 200)%Z &&
      match json_models response with
      | Returned found =>
          match Setup.names_of (or_else found []) with
          | Returned names => existsb (Py.eqb model_name) names
          | Raised _ => false
          end
      | Raised _ => false
      end
  | Raised _ => false
  end.

(** A world for the setup script in which every step succeeds and the
    model is already there. *)
Module SetupFixture.

Definition all_fine (command : str) : Checked := Completed.

Definition version_zero (command : str) : outcome Process :=
  Returned {| returncode := 0; process_stdout := lit "ollama 0.5" |}.

Definition serving (models : list (option str)) (url : str)
  : outcome Response :=
  Returned {| status_code := 200; json_models := Returned (Some models) |}.

Definition sync_fails (command : str) : Checked :=
  CalledProcessError
    (lit "Command 'uv sync' returned non-zero exit status 2.") []
    (lit "error: no lock file").

End SetupFixture.

(** A text that does not start with white space. *)
Definition clean_left (s : str) : Prop :=
  match s with
  | [] => True
  | c :: _ => Py.isspace c = false
  end.

(** * Properties *)

(** ** Generators *)

Lemma gen_bind_returned {Y A B} (ys : list Y) (a : A) (k : A -> Gen.t Y B) :
  Gen.bind (ys, Returned a) k = (ys ++ fst (k a), snd (k a)).
Proof. unfold Gen.bind. destruct (k a); reflexivity. Qed.

Lemma gen_bind_raised {Y A B} (ys : list Y) (e : exn) (k : A -> Gen.t Y B) :
  Gen.bind (ys, Raised e) k = (ys, Raised e).
Proof. reflexivity. Qed.

Lemma gen_try_except_finish {Y} (body : Gen.t Y unit) (h : exn -> Y) :
  Gen.finish (Gen.try_except body (fun e => Gen.yield (h e))) = Returned tt.
Proof. destruct body as [ys [[]|e]]; reflexivity. Qed.

Lemma gen_try_except_yielded {Y} (body : Gen.t Y unit) (h : exn -> Y) :
  Gen.yielded (Gen.try_except body (fun e => Gen.yield (h e))) =
  Gen.yielded body ++
    match Gen.finish body with Returned _ => [] | Raised e => [h e] end.
Proof.
  destruct body as [ys [[]|e]]; simpl; [now rewrite app_nil_r | reflexivity].
Qed.

(** ** The last message of a snapshot *)

Lemma final_of_app (ms : list Message) (m : Message) :
  Relay.final_of (ms ++ [m]) = Some m.
Proof.
  induction ms as [|a ms IH]; [reflexivity|].
  simpl. destruct (ms ++ [m]) eqn:E; [|exact IH].
  destruct ms; discriminate.
Qed.

Lemma final_of_nil_iff (ms : list Message) :
  Relay.final_of ms = None <-> ms = [].
Proof.
  split; [|intros ->; reflexivity].
  induction ms as [|a ms IH]; [reflexivity|].
  simpl. destruct ms; [discriminate|]. intros H. specialize (IH H).
  discriminate.
Qed.

(** ** One snapshot *)

Lemma for_each_announce_call (calls : list ToolCall) :
  Gen.for_each calls Relay.announce_call =
  (map Turn.invocation_of (Turn.named_prefix calls),
   if forallb Turn.has_name calls then Returned tt
   else Raised Relay.key_error).
Proof.
  induction calls as [|c calls IH]; [reflexivity|].
  cbn [Gen.for_each forallb Turn.named_prefix]. rewrite IH.
  unfold Relay.announce_call, Relay.getitem_name.
  destruct c as [[n|] args]; cbn; [|reflexivity].
  destruct (forallb Turn.has_name calls); reflexivity.
Qed.

Lemma for_each_announce_result (messages : list Message) :
  Gen.for_each messages Relay.announce_result =
  (map Turn.output_of (filter Turn.is_named messages), Returned tt).
Proof.
  induction messages as [|m ms IH]; [reflexivity|].
  cbn [Gen.for_each filter]. rewrite IH.
  unfold Relay.announce_result, Turn.is_named, truthy_opt.
  destruct m as [cls c [n|] calls]; cbn [name]; [|reflexivity].
  destruct (truthy n); reflexivity.
Qed.

(** What the body of the loop does with one snapshot, in every case. *)
Lemma relay_chunk_cases (show : bool) (chunk : State) :
  Relay.relay_chunk show chunk =
  match Turn.inspected chunk with
  | None => ([], Returned tt)
  | Some m =>
      if show && negb (forallb Turn.has_name (tool_calls m))
      then (map Turn.invocation_of (Turn.named_prefix (tool_calls m)),
            Raised Relay.key_error)
      else (Turn.fragments_of show chunk, Returned tt)
  end.
Proof.
  unfold Relay.relay_chunk, Turn.fragments_of, Turn.announcements,
    Turn.whole_content,
    Turn.inspected.
  destruct chunk as [messages|]; [|reflexivity].
  destruct (Relay.final_of messages) as [m|]; [|reflexivity].
  destruct (Relay.isinstance m AIMessage); [|reflexivity].
  cbn [Turn.messages_of].
  destruct show; cbn [andb].
  - rewrite for_each_announce_result.
    destruct (tool_calls m) as [|c calls] eqn:Ecalls.
    + cbn. destruct (truthy (content m)); reflexivity.
    + cbn [Relay.truthy_list]. rewrite for_each_announce_call.
      destruct (forallb Turn.has_name (c :: calls)) eqn:Hn; cbn [negb].
      * assert (Turn.named_prefix (c :: calls) = c :: calls) as ->.
        { clear - Hn. induction (c :: calls) as [|x l IH]; [reflexivity|].
          cbn in *. apply andb_prop in Hn as [Hx Hl]. rewrite Hx.
          now rewrite IH. }
        rewrite gen_bind_returned. cbn [fst snd].
        rewrite gen_bind_returned. cbn [fst snd].
        destruct (truthy (content m)); cbn; now rewrite <- ?app_assoc.
      * reflexivity.
  - cbn. destruct (truthy (content m)); reflexivity.
Qed.

Lemma relay_chunk_named (show : bool) (chunk : State) :
  Turn.calls_named chunk = true ->
  Relay.relay_chunk show chunk = (Turn.fragments_of show chunk, Returned tt).
Proof.
  intros Hn. rewrite relay_chunk_cases. unfold Turn.calls_named in Hn.
  unfold Turn.fragments_of, Turn.announcements, Turn.whole_content.
  destruct (Turn.inspected chunk) as [m|].
  - rewrite Hn, andb_false_r. reflexivity.
  - now destruct show.
Qed.

Lemma relay_chunk_hidden (chunk : State) :
  Relay.relay_chunk false chunk = (Turn.whole_content chunk, Returned tt).
Proof.
  rewrite relay_chunk_cases. unfold Turn.fragments_of, Turn.whole_content.
  now destruct (Turn.inspected chunk).
Qed.

(** Whatever one snapshot yields is an announcement or the content. *)
Lemma relay_chunk_kinds (show : bool) (chunk : State) :
  Forall (fun f => Turn.is_tool f = true \/
                   (is_content f = true /\ Turn.silent chunk = false))
    (Gen.yielded (Relay.relay_chunk show chunk)).
Proof.
  rewrite relay_chunk_cases.
  unfold Turn.fragments_of, Turn.announcements, Turn.whole_content, Turn.silent.
  destruct (Turn.inspected chunk) as [m|]; [|constructor].
  assert (Hinv : forall l, Forall (fun f => Turn.is_tool f = true \/
             (is_content f = true /\ negb (truthy (content m)) = false))
             (map Turn.invocation_of l)).
  { intros l. apply Forall_forall. intros f Hf.
    apply in_map_iff in Hf as (c & <- & _). now left. }
  assert (Hout : forall l, Forall (fun f => Turn.is_tool f = true \/
             (is_content f = true /\ negb (truthy (content m)) = false))
             (map Turn.output_of l)).
  { intros l. apply Forall_forall. intros f Hf.
    apply in_map_iff in Hf as (c & <- & _). now left. }
  destruct (show && negb (forallb Turn.has_name (tool_calls m)));
    cbn [Gen.yielded fst]; [apply Hinv|].
  apply Forall_app. split.
  - destruct show; [|constructor]. apply Forall_app. split; auto.
  - destruct (truthy (content m)); constructor; [|constructor].
    right. split; reflexivity.
Qed.

(** ** A whole turn *)

Lemma drain_next (show : bool) (chunk : State) (rest : Stream) :
  Relay.drain show (Next chunk rest) =
  Gen.bind (Relay.relay_chunk show chunk) (fun _ => Relay.drain show rest).
Proof. reflexivity. Qed.

Lemma drain_undisturbed (show : bool) (it : Stream) :
  Turn.undisturbed it = true ->
  Relay.drain show it =
  (flat_map (Turn.fragments_of show) (Turn.snapshots it), Returned tt).
Proof.
  unfold Turn.undisturbed.
  induction it as [|e|chunk rest IH]; cbn; intros H.
  - reflexivity.
  - discriminate.
  - apply andb_prop in H as [He H]. apply andb_prop in H as [Hc Hr].
    fold (Relay.relay_chunk show chunk).
    rewrite (relay_chunk_named show chunk Hc), gen_bind_returned.
    rewrite IH by now rewrite He, Hr. reflexivity.
Qed.

Lemma drain_Forall (P : Fragment -> Prop) (show : bool) (it : Stream) :
  (forall chunk, In chunk (Turn.snapshots it) ->
     Forall P (Gen.yielded (Relay.relay_chunk show chunk))) ->
  Forall P (Gen.yielded (Relay.drain show it)).
Proof.
  induction it as [|e|chunk rest IH]; intros H; try constructor.
  rewrite drain_next.
  pose proof (H chunk (or_introl eq_refl)) as Hc.
  assert (Hr : Forall P (Gen.yielded (Relay.drain show rest))).
  { apply IH. intros c Hin. apply H. now right. }
  destruct (Relay.relay_chunk show chunk) as [ys [[]|e]]; [|exact Hc].
  rewrite gen_bind_returned. apply Forall_app. split; assumption.
Qed.

(** A failure of the iterator after [chunks] changes nothing about what the
    loop yields on [chunks]. *)
Lemma drain_after_raises (show : bool) (chunks : list State) (e : exn) :
  Relay.drain show (Turn.after chunks (Raises e)) =
  (Gen.yielded (Relay.drain show (Turn.after chunks Stop)),
   match Gen.finish (Relay.drain show (Turn.after chunks Stop)) with
   | Returned _ => Raised e
   | Raised e0 => Raised e0
   end).
Proof.
  induction chunks as [|chunk rest IH]; [reflexivity|].
  cbn [Turn.after]. rewrite !drain_next, IH.
  destruct (Relay.relay_chunk show chunk) as [ys [[]|e0]]; [|reflexivity].
  rewrite !gen_bind_returned. reflexivity.
Qed.

Lemma drain_never_error (show : bool) (it : Stream) :
  Forall (fun f => is_error f = false) (Gen.yielded (Relay.drain show it)).
Proof.
  apply drain_Forall. intros chunk _.
  eapply Forall_impl; [|apply relay_chunk_kinds].
  intros f [H|[H _]]; destruct f; try reflexivity; discriminate.
Qed.

(** ** Counting fragments of a snapshot *)

Lemma contents_app (xs ys : list Fragment) :
  Turn.contents (xs ++ ys) = Turn.contents xs ++ Turn.contents ys.
Proof. apply flat_map_app. Qed.

Lemma contents_of_tools (fs : list Fragment) :
  Forall (fun f => Turn.is_tool f = true) fs -> Turn.contents fs = [].
Proof.
  induction 1 as [|f fs Hf _ IH]; [reflexivity|].
  cbn. fold (Turn.contents fs). rewrite IH. now destruct f.
Qed.

Lemma announcements_are_tools (chunk : State) :
  Forall (fun f => Turn.is_tool f = true) (Turn.announcements chunk).
Proof.
  unfold Turn.announcements.
  destruct (Turn.inspected chunk) as [m|]; [|constructor].
  apply Forall_app. split; apply Forall_forall; intros f Hf;
    apply in_map_iff in Hf as (x & <- & _); reflexivity.
Qed.

Lemma contents_fragments_of (show : bool) (chunk : State) :
  Turn.contents (Turn.fragments_of show chunk) = Turn.shown_text chunk.
Proof.
  unfold Turn.fragments_of. rewrite contents_app.
  assert (Turn.contents (if show then Turn.announcements chunk else []) = [])
    as ->.
  { destruct show; [|reflexivity].
    apply contents_of_tools, announcements_are_tools. }
  unfold Turn.whole_content, Turn.shown_text.
  destruct (Turn.inspected chunk) as [m|]; [|reflexivity].
  now destruct (truthy (content m)).
Qed.

Lemma contents_flat_map (show : bool) (chunks : list State) :
  Turn.contents (flat_map (Turn.fragments_of show) chunks) =
  flat_map Turn.shown_text chunks.
Proof.
  induction chunks as [|c cs IH]; [reflexivity|].
  cbn [flat_map]. now rewrite contents_app, contents_fragments_of, IH.
Qed.

Lemma filter_flat_map {A B} (p : B -> bool) (f : A -> list B) (l : list A) :
  filter p (flat_map f l) = flat_map (fun a => filter p (f a)) l.
Proof.
  induction l as [|a l IH]; [reflexivity|].
  cbn [flat_map]. now rewrite filter_app, IH.
Qed.

Lemma filter_all {A} (p : A -> bool) (l : list A) :
  Forall (fun a => p a = true) l -> filter p l = l.
Proof.
  induction 1 as [|a l Ha _ IH]; [reflexivity|]. cbn. now rewrite Ha, IH.
Qed.

Lemma filter_none {A} (p : A -> bool) (l : list A) :
  Forall (fun a => p a = false) l -> filter p l = [].
Proof.
  induction 1 as [|a l Ha _ IH]; [reflexivity|]. cbn. now rewrite Ha, IH.
Qed.

Lemma tools_of_fragments (chunk : State) :
  filter Turn.is_tool (Turn.fragments_of true chunk) = Turn.announcements chunk.
Proof.
  unfold Turn.fragments_of. rewrite filter_app.
  rewrite (filter_all _ (announcements_are_tools chunk)).
  unfold Turn.whole_content.
  destruct (Turn.inspected chunk) as [m|]; [|now rewrite app_nil_r].
  destruct (truthy (content m)); cbn; now rewrite app_nil_r.
Qed.

Lemma invocations_of_announcements (chunk : State) :
  length (filter is_tool_invocation (Turn.announcements chunk)) =
  Turn.calls_in chunk.
Proof.
  unfold Turn.announcements, Turn.calls_in.
  destruct (Turn.inspected chunk) as [m|]; [|reflexivity].
  rewrite filter_app, filter_all, filter_none, app_nil_r, length_map;
    [reflexivity| |]; apply Forall_forall; intros f Hf;
    apply in_map_iff in Hf as (x & <- & _); reflexivity.
Qed.

Lemma outputs_of_announcements (chunk : State) :
  length (filter is_tool_output (Turn.announcements chunk)) =
  Turn.results_in chunk.
Proof.
  unfold Turn.announcements, Turn.results_in.
  destruct (Turn.inspected chunk) as [m|]; [|reflexivity].
  rewrite filter_app, filter_none, filter_all, length_app, length_map;
    [reflexivity| |]; apply Forall_forall; intros f Hf;
    apply in_map_iff in Hf as (x & <- & _); reflexivity.
Qed.

Lemma length_flat_map_sum {A B} (f : A -> list B) (l : list A) :
  length (flat_map f l) = list_sum (map (fun a => length (f a)) l).
Proof.
  induction l as [|a l IH]; [reflexivity|].
  cbn [flat_map map list_sum]. now rewrite length_app, IH.
Qed.

Lemma filter_filter_tool (p : Fragment -> bool) (fs : list Fragment) :
  (forall f, p f = true -> Turn.is_tool f = true) ->
  filter p (filter Turn.is_tool fs) = filter p fs.
Proof.
  intros Hp. induction fs as [|f fs IH]; [reflexivity|].
  cbn. destruct (Turn.is_tool f) eqn:Ht; cbn; rewrite IH.
  - reflexivity.
  - destruct (p f) eqn:Hpf; [|reflexivity].
    apply Hp in Hpf. congruence.
Qed.

(** ** The relay as a whole *)

Lemma relay_undisturbed (show : bool) (it : Stream) :
  Turn.undisturbed it = true ->
  Gen.try_except (Relay.drain show it) Relay.on_error =
  (flat_map (Turn.fragments_of show) (Turn.snapshots it), Returned tt).
Proof. intros H. now rewrite (drain_undisturbed show it H). Qed.

Lemma relay_finish (show : bool) (it : Stream) :
  Gen.finish (Gen.try_except (Relay.drain show it) Relay.on_error) =
  Returned tt.
Proof. apply (gen_try_except_finish (Relay.drain show it) ErrorFragment). Qed.

Lemma relay_yielded (show : bool) (it : Stream) :
  Gen.yielded (Gen.try_except (Relay.drain show it) Relay.on_error) =
  Gen.yielded (Relay.drain show it) ++
    match Gen.finish (Relay.drain show it) with
    | Returned _ => []
    | Raised e => [ErrorFragment e]
    end.
Proof. apply (gen_try_except_yielded (Relay.drain show it) ErrorFragment). Qed.

(** The two streaming methods run the same relay, one over [stream], the
    other over [astream]. *)
Lemma stream_chat_astream_chat (self : DeepAgent) (message : str) :
  stream (agent self) message = astream (agent self) message ->
  stream_chat self message = astream_chat self message.
Proof. unfold stream_chat, astream_chat. now intros ->. Qed.

(** ** C1: content fragments *)

(** C1, as stated, fails.  With the assistant's text arriving as "Hel" and
    then "Hello", [astream_chat] yields the content fragments "Hel" and
    "Hello", not "Hel" and "lo"; their concatenation is "HelHello", not the
    final content "Hello". *)
Lemma C1_suffix_counterexample :
  let fragments :=
    Gen.yielded
      (astream_chat (Sample.streaming false Sample.hel_hello) (lit "hi")) in
  fragments = [Content (lit "Hel"); Content (lit "Hello")] /\
  fragments <> [Content (lit "Hel"); Content (lit "lo")] /\
  concat (Turn.contents fragments) = lit "HelHello" /\
  concat (Turn.contents fragments) <> lit "Hello".
Proof. cbv zeta. repeat split; try reflexivity; vm_compute; discriminate. Qed.

(** C1, amended.  In a turn that ends without a failure, [astream_chat]
    yields as content fragments, snapshot by snapshot, the whole content of
    the last message whenever that message is an assistant message with
    non-empty content; it keeps no count of what it has already shown.  The
    concatenation of the content fragments is the concatenation of these
    snapshot contents.  For "Hel" followed by "Hello" the content fragments
    are "Hel" and "Hello". *)
Theorem C1_whole_content_per_snapshot (self : DeepAgent) (message : str) :
  Turn.undisturbed (astream (agent self) message) = true ->
  Turn.contents (Gen.yielded (astream_chat self message)) =
    flat_map Turn.shown_text (Turn.snapshots (astream (agent self) message)) /\
  concat (Turn.contents (Gen.yielded (astream_chat self message))) =
    concat (flat_map Turn.shown_text
              (Turn.snapshots (astream (agent self) message))) /\
  Turn.contents
    (Gen.yielded
       (astream_chat (Sample.streaming (show_tools self) Sample.hel_hello)
          message)) = [lit "Hel"; lit "Hello"].
Proof.
  intros H. unfold astream_chat at 1 2.
  rewrite (relay_undisturbed (show_tools self) _ H).
  cbn [Gen.yielded fst]. rewrite contents_flat_map.
  repeat split. now destruct (show_tools self).
Qed.

Lemma C1_whole_content_witness :
  Turn.undisturbed
    (astream (agent (Sample.streaming true Sample.two_rounds)) (lit "hi"))
    = true /\
  Turn.contents
    (Gen.yielded (astream_chat (Sample.streaming true Sample.two_rounds)
                    (lit "hi"))) = [lit "It is 8."].
Proof.
  split; [reflexivity|].
  destruct (C1_whole_content_per_snapshot
              (Sample.streaming true Sample.two_rounds) (lit "hi")
              eq_refl) as (H & _).
  rewrite H. reflexivity.
Defined.

(** ** C2: tool announcements *)

(** C2, as stated, fails.  In a turn with two rounds of tool use the result
    of the first tool is still in the snapshot when the second round and the
    final answer arrive, and it is announced each time: two tool results give
    three tool-output fragments.  A snapshot delivered twice has its one tool
    call announced twice. *)
Lemma C2_reannounced_counterexample :
  let fragments :=
    Gen.yielded
      (astream_chat (Sample.streaming true Sample.two_rounds) (lit "hi")) in
  let calc := ToolOutput (lit "calculate") (lit "Result: 8") in
  length (filter Turn.is_named Sample.round5) = 2 /\
  length (filter is_tool_output fragments) = 3 /\
  nth_error fragments 2 = Some calc /\
  nth_error fragments 3 = Some calc /\
  let again :=
    Gen.yielded
      (astream_chat (Sample.streaming true Sample.redelivered) (lit "hi")) in
  again = [Turn.invocation_of Sample.calc_call;
           Turn.invocation_of Sample.calc_call].
Proof. cbv zeta. repeat split; reflexivity. Qed.

(** C2, amended.  With tool visibility enabled and a turn that ends without
    a failure, every snapshot whose last message is an assistant message
    announces each tool call of that message and each named message it
    contains exactly once; nothing is remembered from one snapshot to the
    next, so a tool call or tool result that is part of [k] such snapshots is
    announced [k] times. *)
Theorem C2_announced_once_per_snapshot (self : DeepAgent) (message : str) :
  show_tools self = true ->
  Turn.undisturbed (astream (agent self) message) = true ->
  let chunks := Turn.snapshots (astream (agent self) message) in
  let fragments := Gen.yielded (astream_chat self message) in
  filter Turn.is_tool fragments = flat_map Turn.announcements chunks /\
  length (filter is_tool_invocation fragments) =
    list_sum (map Turn.calls_in chunks) /\
  length (filter is_tool_output fragments) =
    list_sum (map Turn.results_in chunks).
Proof.
  intros Hshow H. cbv zeta. unfold astream_chat.
  rewrite (relay_undisturbed (show_tools self) _ H), Hshow.
  cbn [Gen.yielded fst].
  set (chunks := Turn.snapshots (astream (agent self) message)).
  assert (Htools :
    filter Turn.is_tool (flat_map (Turn.fragments_of true) chunks)
    = flat_map Turn.announcements chunks).
  { rewrite filter_flat_map. induction chunks as [|c cs IH]; [reflexivity|].
    cbn [flat_map]. now rewrite tools_of_fragments, IH. }
  split; [exact Htools|]. split.
  - rewrite <- (filter_filter_tool is_tool_invocation), Htools.
    + rewrite filter_flat_map, length_flat_map_sum. f_equal.
      apply map_ext. intros c. apply invocations_of_announcements.
    + intros f Hf. unfold Turn.is_tool. now rewrite Hf.
  - rewrite <- (filter_filter_tool is_tool_output), Htools.
    + rewrite filter_flat_map, length_flat_map_sum. f_equal.
      apply map_ext. intros c. apply outputs_of_announcements.
    + intros f Hf. unfold Turn.is_tool. rewrite Hf. apply orb_true_r.
Qed.

Lemma C2_announced_once_witness :
  show_tools (Sample.streaming true Sample.two_rounds) = true /\
  Turn.undisturbed
    (astream (agent (Sample.streaming true Sample.two_rounds)) (lit "hi"))
    = true /\
  length
    (filter is_tool_output
       (Gen.yielded (astream_chat (Sample.streaming true Sample.two_rounds)
                       (lit "hi")))) = 3.
Proof.
  split; [reflexivity|]. split; [reflexivity|].
  destruct (C2_announced_once_per_snapshot
              (Sample.streaming true Sample.two_rounds) (lit "hi")
              eq_refl eq_refl) as (_ & _ & H).
  rewrite H. reflexivity.
Defined.

(** ** C3: gating *)

(** C3.  With tool visibility disabled, everything the streaming methods
    yield is a content fragment or the error fragment: no tool invocation
    and no tool output is ever yielded. *)
Theorem C3_hidden_tools_never_shown (self : DeepAgent) (message : str) :
  show_tools self = false ->
  Forall (fun f => (is_content f = true \/ is_error f = true) /\
                   is_tool_invocation f = false /\ is_tool_output f = false)
    (Gen.yielded (astream_chat self message)) /\
  Forall (fun f => (is_content f = true \/ is_error f = true) /\
                   is_tool_invocation f = false /\ is_tool_output f = false)
    (Gen.yielded (stream_chat self message)).
Proof.
  intros Hshow. unfold astream_chat, stream_chat. rewrite Hshow.
  assert (H : forall it,
    Forall (fun f => (is_content f = true \/ is_error f = true) /\
                     is_tool_invocation f = false /\ is_tool_output f = false)
      (Gen.yielded (Gen.try_except (Relay.drain false it) Relay.on_error))).
  { intros it. rewrite relay_yielded. apply Forall_app. split.
    - apply drain_Forall. intros chunk _. rewrite relay_chunk_hidden.
      unfold Turn.whole_content. cbn [Gen.yielded fst].
      destruct (Turn.inspected chunk) as [m|]; [|constructor].
      destruct (truthy (content m)); constructor; [|constructor].
      repeat split. now left.
    - destruct (Gen.finish (Relay.drain false it)); constructor;
        [|constructor]. repeat split. now right. }
  split; apply H.
Qed.

Lemma C3_hidden_tools_witness :
  show_tools (Sample.streaming false Sample.two_rounds) = false /\
  Forall (fun f => (is_content f = true \/ is_error f = true) /\
                   is_tool_invocation f = false /\ is_tool_output f = false)
    (Gen.yielded (astream_chat (Sample.streaming false Sample.two_rounds)
                    (lit "hi"))).
Proof.
  split; [reflexivity|].
  exact (proj1 (C3_hidden_tools_never_shown
                  (Sample.streaming false Sample.two_rounds) (lit "hi")
                  eq_refl)).
Defined.

(** ** C4: truncation of tool output *)

Lemma preview_long (tool_output : str) :
  100 < length tool_output ->
  Relay.preview tool_output = firstn 100 tool_output ++ lit "..." /\
  length (firstn 100 tool_output) = 100.
Proof.
  intros H. unfold Relay.preview.
  destruct tool_output as [|c s]; [cbn in H; lia|].
  cbn [truthy andb]. apply Nat.ltb_lt in H as Hb. rewrite Hb.
  split; [reflexivity|]. rewrite length_firstn. lia.
Qed.

Lemma preview_short (tool_output : str) :
  length tool_output <= 100 -> Relay.preview tool_output = tool_output.
Proof.
  intros H. unfold Relay.preview.
  assert ((100 <? length tool_output) = false) as ->
    by (apply Nat.ltb_ge; lia).
  now rewrite andb_false_r.
Qed.

Example preview_samples :
  Relay.preview Sample.long_output = repeat 120%N 100 ++ lit "..." /\
  length (Relay.preview Sample.long_output) = 103 /\
  Relay.preview Sample.short_output = Sample.short_output /\
  Relay.preview [] = [].
Proof. repeat split; reflexivity. Qed.

(** C4.  The fragment announcing a named message shows its content cut to
    the first 100 characters followed by ["..."] when the content is longer
    than 100 characters, and unchanged otherwise; a content of 250 characters
    is shown as its first 100 characters plus the marker, a content of 80
    characters as it is.  With visibility enabled this fragment is among
    those [astream_chat] yields for a snapshot that contains the message. *)
Theorem C4_tool_output_truncated
    (self : DeepAgent) (message : str)
    (before rest : list Message) (msg final : Message) (tool : str) :
  show_tools self = true ->
  astream (agent self) message =
    Next (Some (before ++ msg :: rest ++ [final])) Stop ->
  Relay.isinstance final AIMessage = true ->
  forallb Turn.has_name (tool_calls final) = true ->
  name msg = Some tool ->
  truthy tool = true ->
  let shown := Relay.preview (content msg) in
  Relay.announce_result msg = ([ToolOutput tool shown], Returned tt) /\
  In (ToolOutput tool shown) (Gen.yielded (astream_chat self message)) /\
  text (ToolOutput tool shown) =
    [outbox] ++ lit " " ++ tool ++ lit " output: " ++ shown ++ nl /\
  (100 < length (content msg) ->
     shown = firstn 100 (content msg) ++ lit "..." /\
     length (firstn 100 (content msg)) = 100) /\
  (length (content msg) <= 100 -> shown = content msg) /\
  (length (content msg) = 250 ->
     shown = firstn 100 (content msg) ++ lit "..." /\
     length (firstn 100 (content msg)) = 100 /\ length shown = 103) /\
  (length (content msg) = 80 -> shown = content msg).
Proof.
  intros Hshow Hstream Hai Hnamed Hname Htool shown.
  assert (Hmsg : Turn.is_named msg = true).
  { unfold Turn.is_named. now rewrite Hname. }
  assert (Hfinal : Relay.final_of (before ++ msg :: rest ++ [final])
                   = Some final).
  { replace (before ++ msg :: rest ++ [final])
      with ((before ++ msg :: rest) ++ [final])
      by now rewrite <- app_assoc.
    apply final_of_app. }
  split; [|split; [|split; [reflexivity|]]].
  - unfold Relay.announce_result. now rewrite Hname, Htool.
  - unfold astream_chat. rewrite Hstream, Hshow, relay_undisturbed.
    + cbn [Turn.snapshots flat_map Gen.yielded fst]. rewrite app_nil_r.
      unfold Turn.fragments_of, Turn.announcements, Turn.inspected.
      rewrite Hfinal, Hai. cbn [Turn.messages_of].
      apply in_or_app. left. apply in_or_app. right.
      replace (ToolOutput tool shown) with (Turn.output_of msg)
        by (unfold Turn.output_of; now rewrite Hname).
      apply in_map, filter_In. split; [|exact Hmsg].
      apply in_or_app. right. now left.
    + unfold Turn.undisturbed, Turn.calls_named, Turn.inspected.
      cbn [Turn.ends_normally Turn.snapshots forallb andb].
      now rewrite Hfinal, Hai, Hnamed.
  - split; [apply preview_long|]. split; [apply preview_short|]. split.
    + intros H250. destruct (preview_long (content msg)) as [Hp Hl]; [lia|].
      subst shown. rewrite Hp. repeat split; try assumption.
      rewrite length_app, Hl. reflexivity.
    + intros H80. apply preview_short. lia.
Qed.

Lemma C4_tool_output_witness :
  let long := {| msg_class := ToolMessage; content := Sample.long_output;
                 name := Some (lit "web_search"); tool_calls := [] |} in
  let self :=
    Sample.streaming true
      (Next
         (Some ([Sample.human "q"] ++ long :: [] ++ [Sample.assistant "ok" []]))
         Stop) in
  length (content long) = 250 /\
  In (ToolOutput (lit "web_search") (repeat 120%N 100 ++ lit "..."))
    (Gen.yielded (astream_chat self (lit "q"))).
Proof.
  cbv zeta. split; [reflexivity|].
  exact (proj1 (proj2
    (C4_tool_output_truncated
       (Sample.streaming true
          (Next (Some ([Sample.human "q"]
                   ++ {| msg_class := ToolMessage;
                         content := Sample.long_output;
                         name := Some (lit "web_search");
                         tool_calls := [] |}
                   :: [] ++ [Sample.assistant "ok" []])) Stop))
       (lit "q") [Sample.human "q"] [] _ (Sample.assistant "ok" [])
       eq_refl eq_refl eq_refl eq_refl eq_refl eq_refl))).
Defined.

(** ** C5: failures during a turn *)

(** C5.  When the runtime's iterator raises after handing over [chunks], the
    streaming methods return normally; what they yield is everything the
    loop yields on [chunks], followed by one error fragment whose text is
    ["Error: "] and the exception's text.  The exception shown is the
    iterator's, unless a snapshot in [chunks] had already made the loop
    raise, in which case it is that earlier one.  No other fragment is an
    error fragment.  [stream_chat] does the same over [stream]. *)
Theorem C5_failure_ends_turn_with_error_fragment
    (self : DeepAgent) (message : str) (chunks : list State) (e : exn) :
  astream (agent self) message = Turn.after chunks (Raises e) ->
  let emitted := Relay.drain (show_tools self) (Turn.after chunks Stop) in
  let shown :=
    match Gen.finish emitted with Returned _ => e | Raised e0 => e0 end in
  Gen.finish (astream_chat self message) = Returned tt /\
  Gen.yielded (astream_chat self message) =
    Gen.yielded emitted ++ [ErrorFragment shown] /\
  text (ErrorFragment shown) = lit "Error: " ++ shown /\
  Forall (fun f => is_error f = false) (Gen.yielded emitted) /\
  (stream (agent self) message = Turn.after chunks (Raises e) ->
   Gen.finish (stream_chat self message) = Returned tt /\
   Gen.yielded (stream_chat self message) =
     Gen.yielded emitted ++ [ErrorFragment shown]).
Proof.
  intros Ha emitted shown.
  assert (H : forall it, it = Turn.after chunks (Raises e) ->
            Gen.yielded (Gen.try_except (Relay.drain (show_tools self) it)
                           Relay.on_error) =
            Gen.yielded emitted ++ [ErrorFragment shown]).
  { intros it ->. rewrite relay_yielded, drain_after_raises.
    fold emitted. subst shown. unfold Gen.yielded, Gen.finish.
    destruct emitted as [ys [[]|e0]]; reflexivity. }
  split; [apply relay_finish|]. split; [now apply H|].
  split; [reflexivity|]. split; [apply drain_never_error|].
  intros Hs. split; [apply relay_finish|now apply H].
Qed.

Lemma C5_failure_witness :
  let it := Turn.after [Some Sample.round1; Some Sample.round2]
              (Raises (lit "connection reset")) in
  astream_chat (Sample.streaming true it) (lit "hi") =
  ([Turn.invocation_of Sample.calc_call;
    ErrorFragment (lit "connection reset")], Returned tt).
Proof.
  cbv zeta.
  destruct (C5_failure_ends_turn_with_error_fragment
              (Sample.streaming true
                 (Turn.after [Some Sample.round1; Some Sample.round2]
                    (Raises (lit "connection reset"))))
              (lit "hi") [Some Sample.round1; Some Sample.round2]
              (lit "connection reset") eq_refl) as (Hf & Hy & _).
  unfold Gen.finish, Gen.yielded in Hf, Hy.
  destruct (astream_chat _ _) as [ys r]. cbn [fst snd] in Hf, Hy.
  rewrite Hf, Hy. reflexivity.
Defined.

(** ** C6: the calculator *)

Lemma forallb_refuted {A} (p : A -> bool) (l : list A) (a : A) :
  In a l -> p a = false -> forallb p l = false.
Proof.
  intros Hin Hp. destruct (forallb p l) eqn:E; [|reflexivity].
  rewrite forallb_forall in E. specialize (E a Hin). congruence.
Qed.

(** The allow-list is the ten digits and [+ - * / ( ) . ,] and the space. *)
Lemma allowed_chars_are (c : char) :
  contains allowed_chars c =
  IntExpr.is_digit c
  || existsb (N.eqb c) [43; 45; 42; 47; 40; 41; 46; 44; 32]%N.
Proof.
  unfold contains, allowed_chars, IntExpr.is_digit. cbn.
  repeat match goal with
         | |- context [N.eqb c ?k] =>
             destruct (N.eqb_spec c k) as [->|?]; [reflexivity|]
         end.
  cbn. destruct (N.leb_spec 48 c), (N.leb_spec c 57); try reflexivity. lia.
Qed.

(** The evaluator follows Python's precedence and associativity. *)
Example int_expr_precedence :
  IntExpr.value (lit "2 + 2 * 3") = Some 8%Z /\
  IntExpr.value (lit "(2 + 2) * 3") = Some 12%Z /\
  IntExpr.value (lit "10 - 4 - 3") = Some 3%Z /\
  IntExpr.value (lit " -2 * -(3 + 4)") = Some 14%Z.
Proof. repeat split; reflexivity. Qed.

(** What lies outside integer arithmetic is left to the parameter. *)
Example int_expr_outside :
  IntExpr.value (lit "7 / 2") = None /\
  IntExpr.value (lit "2 ** 3") = None /\
  IntExpr.value (lit "1, 2") = None /\
  IntExpr.value (lit "2 +") = None /\
  IntExpr.value (lit "012") = None /\
  IntExpr.value [] = None.
Proof. repeat split; reflexivity. Qed.

(** C6.  With [eval] doing integer arithmetic, [calculate] answers
    ["Result: 8"] on ["2 + 2 * 3"].  On an expression with a character outside
    [0123456789+-*/()., ] it answers the rejection message whatever [eval]
    would do with the expression, so [eval] has no part in the answer;
    ["import os"] is such an expression. *)
Theorem C6_calculator_evaluates_or_rejects
    (eval beyond : str -> outcome PyValue) (expression : str) (c : char) :
  In c expression ->
  contains allowed_chars c = false ->
  calculate (py_eval beyond) (lit "2 + 2 * 3") = Returned (lit "Result: 8") /\
  calculate eval expression = Returned rejection /\
  calculate eval (lit "import os") = Returned rejection /\
  rejection = lit "Error: Only basic mathematical operations are allowed".
Proof.
  intros Hin Hc. split; [reflexivity|]. split; [|split; reflexivity].
  unfold calculate.
  now rewrite (forallb_refuted (contains allowed_chars) expression c Hin Hc).
Qed.

Lemma C6_calculator_witness :
  calculate Sample.failing_eval (lit "__import__('os')") = Returned rejection.
Proof.
  exact (proj1 (proj2
    (C6_calculator_evaluates_or_rejects Sample.failing_eval Sample.failing_eval
       (lit "__import__('os')") 95%N
       (or_introl eq_refl) eq_refl))).
Defined.

(** ** C8: failures inside the tools *)

(** C8.  The code does not do what C8 says for one of the three tools.
    [web_search] and [calculate] never raise: whatever fails inside them,
    the search, the serialisation, the evaluation or the formatting of the
    result, comes back as a result string that starts with
    ["Error performing web search: "], or ["Error calculating expression: "],
    followed by the exception's text.  [get_current_time] has no handler of
    this kind: when the clock read fails, as in the sample, the exception
    leaves the tool. *)
Theorem C8_get_current_time_lets_failure_escape
    (ddgs_text : str -> Z -> str -> str -> outcome (list Dict))
    (json_dumps : list FormattedResult -> outcome str)
    (datetime_now : outcome DateTime)
    (eval : str -> outcome PyValue)
    (query : str) (max_results : Z) (region safesearch : str)
    (time : option str) (expression : str) :
  get_current_time Sample.failing_clock =
    Raised (lit "timestamp out of range for platform time_t") /\
  get_current_time datetime_now =
    match datetime_now with
    | Raised e => Raised e
    | Returned now => Returned (lit "Current time: " ++ strftime now)
    end /\
  (exists s, web_search ddgs_text json_dumps query max_results region
               safesearch time = Returned s) /\
  web_search ddgs_text json_dumps query max_results region safesearch time =
    match ddgs_text query max_results region safesearch with
    | Raised e => Returned (lit "Error performing web search: " ++ e)
    | Returned results =>
        match json_dumps (map format_result results) with
        | Raised e => Returned (lit "Error performing web search: " ++ e)
        | Returned s => Returned s
        end
    end /\
  (exists s, calculate eval expression = Returned s) /\
  calculate eval expression =
    (if forallb (contains allowed_chars) expression then
       match eval expression with
       | Raised e => Returned (lit "Error calculating expression: " ++ e)
       | Returned v =>
           match format_value v with
           | Raised e => Returned (lit "Error calculating expression: " ++ e)
           | Returned shown => Returned (lit "Result: " ++ shown)
           end
       end
     else Returned rejection).
Proof.
  unfold web_search, calculate, get_current_time.
  split; [reflexivity|]. split; [|split; [|split; [|split]]].
  - destruct datetime_now; reflexivity.
  - destruct (ddgs_text query max_results region safesearch) as [results|e];
      cbn; [|eauto]. destruct (json_dumps _); cbn; eauto.
  - destruct (ddgs_text query max_results region safesearch) as [results|e];
      cbn; [|reflexivity]. destruct (json_dumps _); reflexivity.
  - destruct (forallb (contains allowed_chars) expression); cbn; [|eauto].
    destruct (eval expression) as [v|e]; cbn; [|eauto].
    destruct (format_value v); cbn; eauto.
  - destruct (forallb (contains allowed_chars) expression); cbn;
      [|reflexivity].
    destruct (eval expression) as [v|e]; cbn; [|reflexivity].
    destruct (format_value v); reflexivity.
Qed.

(** ** C7: tool names at construction *)

(** C7, as stated, fails: the constructor does not look at tool names.  With
    a model client and a framework that accept their arguments, passing a
    tool that is also called [calculate] yields an agent with four tools, two
    of them called [calculate]. *)
Lemma C7_name_collision_counterexample :
  exists self,
    __init__ Sample.config Sample.accepting_ChatOllama
      Sample.accepting_create_deep_agent (lit "prompt")
      None None (Some [Sample.my_calculate]) None None None = Returned self /\
    map tool_name (tools self) =
      [lit "web_search"; lit "get_current_time"; lit "calculate";
       lit "calculate"] /\
    ~ NoDup (map tool_name (tools self)).
Proof.
  eexists. split; [reflexivity|]. split; [reflexivity|].
  cbn. intros H. inversion H as [|x l _ H1]; subst.
  inversion H1 as [|x l _ H2]; subst.
  inversion H2 as [|x l Hnot _]; subst.
  apply Hnot. now left.
Qed.

(** C7, amended.  The constructor makes no check of tool names of its own.
    It puts the three built-in tools in front of the caller's tools, keeps
    all of them in order, and hands that list to [create_deep_agent]; it
    raises exactly when [ChatOllama] or [create_deep_agent] raises, with
    their exception. *)
Theorem C7_constructor_keeps_every_tool
    (config : Config)
    (ChatOllama : str -> str -> N -> outcome LLM)
    (create_deep_agent : AgentKwargs -> outcome Runtime)
    (default_system_prompt : str)
    (model_name' base_url' : option str) (tools' : option (list Tool))
    (system_prompt : option str)
    (use_longterm_memory' show_tools' : option bool) :
  let all_tools := default_tools ++ or_else tools' [] in
  map tool_name default_tools =
    [lit "web_search"; lit "get_current_time"; lit "calculate"] /\
  match __init__ config ChatOllama create_deep_agent default_system_prompt
          model_name' base_url' tools' system_prompt use_longterm_memory'
          show_tools' with
  | Returned self =>
      tools self = all_tools /\
      exists kwargs,
        kw_tools kwargs = all_tools /\ kw_model kwargs = llm self /\
        create_deep_agent kwargs = Returned (agent self)
  | Raised e =>
      ChatOllama (or_else model_name' (OLLAMA_MODEL config))
        (or_else base_url' (OLLAMA_BASE_URL config)) 1%N = Raised e \/
      exists kwargs,
        kw_tools kwargs = all_tools /\ create_deep_agent kwargs = Raised e
  end.
Proof.
  cbv zeta. split; [reflexivity|]. unfold __init__.
  destruct (ChatOllama _ _ _) as [the_llm|e]; cbn [Outcome.bind]; [|now left].
  destruct (create_deep_agent _) as [the_agent|e] eqn:E; cbn [Outcome.bind].
  - split; [reflexivity|]. eexists. split; [|split; [|exact E]]; reflexivity.
  - right. eexists. split; [|exact E]. reflexivity.
Qed.

(** ** C9: turns without text *)

Lemma drain_silent (show : bool) (it : Stream) :
  forallb Turn.silent (Turn.snapshots it) = true ->
  Forall (fun f => Turn.is_tool f = true) (Gen.yielded (Relay.drain show it)).
Proof.
  intros H. apply drain_Forall. intros chunk Hin.
  rewrite forallb_forall in H. specialize (H chunk Hin).
  eapply Forall_impl; [|apply relay_chunk_kinds].
  intros f [Ht|[_ Hs]]; [exact Ht|congruence].
Qed.

Lemma hidden_silent (chunks : list State) :
  forallb Turn.silent chunks = true ->
  flat_map (Turn.fragments_of false) chunks = [].
Proof.
  induction chunks as [|c cs IH]; [reflexivity|].
  cbn [forallb flat_map]. intros H. apply andb_prop in H as [Hc Hcs].
  rewrite (IH Hcs), app_nil_r.
  unfold Turn.fragments_of, Turn.whole_content, Turn.silent in *.
  destruct (Turn.inspected c) as [m|]; [|reflexivity].
  now destruct (truthy (content m)).
Qed.

(** C9, as stated, fails.  In the sample turn the assistant first says
    "Let me check." and calls a tool, and its final message is empty and has
    no tool calls.  The turn nevertheless has one content fragment, from the
    earlier snapshot; and with visibility enabled the final snapshot by
    itself yields a fragment, the tool output still present in it. *)
Lemma C9_silent_final_counterexample :
  let final_chunk :=
      Some [Sample.human "q";
          Sample.assistant "Let me check." [Sample.calc_call];
          Sample.tool_result "calculate" "Result: 8";
          Sample.assistant EmptyString []] in
  Turn.snapshots Sample.text_then_silence =
    [Some [Sample.human "q";
           Sample.assistant "Let me check." [Sample.calc_call]];
     final_chunk] /\
  Turn.inspected final_chunk = Some (Sample.assistant EmptyString []) /\
  Turn.contents
    (Gen.yielded
       (astream_chat (Sample.streaming true Sample.text_then_silence)
          (lit "q"))) = [lit "Let me check."] /\
  Turn.contents
    (Gen.yielded
       (astream_chat (Sample.streaming false Sample.text_then_silence)
          (lit "q"))) = [lit "Let me check."] /\
  Relay.relay_chunk true final_chunk =
    ([ToolOutput (lit "calculate") (lit "Result: 8")], Returned tt).
Proof. cbv zeta. repeat split; reflexivity. Qed.

(** C9, amended.  When in every snapshot of the turn the last message is
    either not an assistant message or an assistant message with empty
    content, [astream_chat] yields no content fragment and no placeholder:
    every fragment is a tool announcement or the error fragment, and when the
    turn ends without a failure there are only tool announcements, none at
    all with visibility disabled.  A snapshot whose last message is an
    assistant message with empty content and no tool calls yields nothing
    when visibility is disabled or the snapshot has no named message. *)
Theorem C9_silent_turn_yields_no_content (self : DeepAgent) (message : str) :
  forallb Turn.silent (Turn.snapshots (astream (agent self) message)) = true ->
  let fragments := Gen.yielded (astream_chat self message) in
  Turn.contents fragments = [] /\
  Forall (fun f => Turn.is_tool f = true \/ is_error f = true) fragments /\
  Gen.finish (astream_chat self message) = Returned tt /\
  (Turn.undisturbed (astream (agent self) message) = true ->
   Forall (fun f => Turn.is_tool f = true) fragments /\
   (show_tools self = false -> fragments = [])) /\
  (forall (show : bool) (chunk : State) (m : Message),
     Turn.inspected chunk = Some m ->
     content m = [] ->
     tool_calls m = [] ->
     show = false \/ filter Turn.is_named (Turn.messages_of chunk) = [] ->
     Relay.relay_chunk show chunk = ([], Returned tt)).
Proof.
  intros Hsilent fragments.
  pose proof (drain_silent (show_tools self) _ Hsilent) as Htools.
  assert (Hy : fragments =
            Gen.yielded (Relay.drain (show_tools self)
                           (astream (agent self) message)) ++
            match Gen.finish (Relay.drain (show_tools self)
                                (astream (agent self) message)) with
            | Returned _ => []
            | Raised e => [ErrorFragment e]
            end) by apply relay_yielded.
  split; [|split; [|split; [apply relay_finish|split]]].
  - rewrite Hy, contents_app, (contents_of_tools Htools).
    now destruct (Gen.finish _).
  - rewrite Hy. apply Forall_app. split.
    + eapply Forall_impl; [|exact Htools]. intros f Hf. now left.
    + destruct (Gen.finish _); constructor; [now right|constructor].
  - intros Hu. rewrite Hy.
    rewrite (drain_undisturbed (show_tools self) _ Hu) in *.
    cbn [Gen.yielded Gen.finish fst snd] in *. rewrite app_nil_r.
    split; [exact Htools|]. intros Hshow. rewrite Hshow.
    now apply hidden_silent.
  - intros show chunk m Hm Hcontent Hcalls Hor.
    rewrite relay_chunk_cases, Hm, Hcalls. cbn [forallb negb].
    rewrite andb_false_r.
    unfold Turn.fragments_of, Turn.announcements, Turn.whole_content.
    rewrite Hm, Hcontent, Hcalls. cbn [truthy map app]. rewrite app_nil_r.
    destruct Hor as [-> | ->]; [reflexivity|]. now destruct show.
Qed.

Lemma C9_silent_turn_witness :
  let it := Next (Some Sample.round1) (Next (Some Sample.round2) Stop) in
  forallb Turn.silent (Turn.snapshots it) = true /\
  Turn.contents
    (Gen.yielded (astream_chat (Sample.streaming true it) (lit "q"))) = [].
Proof.
  cbv zeta. split; [reflexivity|].
  exact (proj1 (C9_silent_turn_yields_no_content
                  (Sample.streaming true
                     (Next (Some Sample.round1)
                        (Next (Some Sample.round2) Stop)))
                  (lit "q") eq_refl)).
Defined.

(** ** C10: the blocking chat *)

Lemma chat_never_raises (self : DeepAgent) (message : str) :
  (exists s, chat self message = Returned s) /\
  (exists s, achat self message = Returned s).
Proof.
  unfold chat, achat, Blocking.on_error.
  split; [destruct (invoke _ _)|destruct (ainvoke _ _)]; cbn;
    eexists; reflexivity.
Qed.

(** C10.  When the runtime call returns, [chat] returns the fixed sentence
    if the answer has no message list, an empty message list, or a last
    message that is not an assistant message; otherwise it returns the
    content of that last message.  [achat] does the same with the answer of
    [ainvoke], whatever [invoke] would do.  (Neither raises: see
    [chat_never_raises].) *)
Theorem C10_blocking_chat_placeholder
    (self : DeepAgent) (message : str) (response : State) :
  Blocking.placeholder =
    lit "I apologize, but I couldn't generate a proper response." /\
  (invoke (agent self) message = Returned response ->
   (response = None -> chat self message = Returned Blocking.placeholder) /\
   (response = Some [] -> chat self message = Returned Blocking.placeholder) /\
   (forall (ms : list Message) (m : Message),
      response = Some (ms ++ [m]) ->
      Relay.isinstance m AIMessage = false ->
      chat self message = Returned Blocking.placeholder) /\
   (forall (ms : list Message) (m : Message),
      response = Some (ms ++ [m]) ->
      Relay.isinstance m AIMessage = true ->
      chat self message = Returned (content m))) /\
  (ainvoke (agent self) message = Returned response ->
   (response = None -> achat self message = Returned Blocking.placeholder) /\
   (response = Some [] ->
    achat self message = Returned Blocking.placeholder) /\
   (forall (ms : list Message) (m : Message),
      response = Some (ms ++ [m]) ->
      Relay.isinstance m AIMessage = false ->
      achat self message = Returned Blocking.placeholder) /\
   (forall (ms : list Message) (m : Message),
      response = Some (ms ++ [m]) ->
      Relay.isinstance m AIMessage = true ->
      achat self message = Returned (content m))).
Proof.
  split; [reflexivity|].
  split; intros H; unfold achat, chat; rewrite H; cbn;
    (split; [now intros ->|]); (split; [now intros ->|]);
    split; intros ms m -> Hm; unfold Blocking.extract;
    now rewrite final_of_app, Hm.
Qed.

Lemma C10_blocking_chat_witness :
  chat (Sample.blocking (Returned (Some Sample.round2))) (lit "q") =
    Returned Blocking.placeholder /\
  chat (Sample.blocking (Returned (Some Sample.round5))) (lit "q") =
    Returned (lit "It is 8.") /\
  achat
    (Sample.session false
       {| invoke := fun _ => Raised (lit "only the async call works");
          ainvoke := fun _ => Returned (Some Sample.round5);
          stream := fun _ => Stop;
          astream := fun _ => Stop |}) (lit "q") =
    Returned (lit "It is 8.") /\
  achat
    (Sample.session false
       {| invoke := fun _ => Returned (Some Sample.round5);
          ainvoke := fun _ => Returned (Some Sample.round2);
          stream := fun _ => Stop;
          astream := fun _ => Stop |}) (lit "q") =
    Returned Blocking.placeholder.
Proof.
  split; [|split; [|split]].
  - exact (proj1 (proj2 (proj2
      (proj1 (proj2
         (C10_blocking_chat_placeholder
            (Sample.blocking (Returned (Some Sample.round2))) (lit "q")
            (Some Sample.round2))) eq_refl)))
      Sample.round1 (Sample.tool_result "calculate" "Result: 8")
      eq_refl eq_refl).
  - exact (proj2 (proj2 (proj2
      (proj1 (proj2
         (C10_blocking_chat_placeholder
            (Sample.blocking (Returned (Some Sample.round5))) (lit "q")
            (Some Sample.round5))) eq_refl)))
      Sample.round4 (Sample.assistant "It is 8." [])
      eq_refl eq_refl).
  - exact (proj2 (proj2 (proj2
      (proj2 (proj2
         (C10_blocking_chat_placeholder
            (Sample.session false
               {| invoke := fun _ => Raised (lit "only the async call works");
                  ainvoke := fun _ => Returned (Some Sample.round5);
                  stream := fun _ => Stop;
                  astream := fun _ => Stop |}) (lit "q")
            (Some Sample.round5))) eq_refl)))
      Sample.round4 (Sample.assistant "It is 8." [])
      eq_refl eq_refl).
  - exact (proj1 (proj2 (proj2
      (proj2 (proj2
         (C10_blocking_chat_placeholder
            (Sample.session false
               {| invoke := fun _ => Returned (Some Sample.round5);
                  ainvoke := fun _ => Returned (Some Sample.round2);
                  stream := fun _ => Stop;
                  astream := fun _ => Stop |}) (lit "q")
            (Some Sample.round2))) eq_refl)))
      Sample.round1 (Sample.tool_result "calculate" "Result: 8")
      eq_refl eq_refl).
Defined.

(** * Further properties of the streaming relay *)

(** The loop over [chunks] followed by [rest]: what [chunks] yield comes
    first, and [rest] is reached only if [chunks] raised nothing. *)
Lemma drain_after (show : bool) (chunks : list State) (rest : Stream) :
  Relay.drain show (Turn.after chunks rest) =
  match Gen.finish (Relay.drain show (Turn.after chunks Stop)) with
  | Returned _ =>
      (Gen.yielded (Relay.drain show (Turn.after chunks Stop))
         ++ Gen.yielded (Relay.drain show rest),
       Gen.finish (Relay.drain show rest))
  | Raised e =>
      (Gen.yielded (Relay.drain show (Turn.after chunks Stop)), Raised e)
  end.
Proof.
  induction chunks as [|chunk more IH].
  - cbn. now destruct (Relay.drain show rest).
  - cbn [Turn.after]. rewrite !drain_next, IH.
    destruct (Relay.relay_chunk show chunk) as [ys [[]|e0]]; [|reflexivity].
    rewrite !gen_bind_returned. unfold Gen.finish, Gen.yielded.
    destruct (Relay.drain show (Turn.after more Stop)) as [zs [[]|e1]];
      cbn [fst snd]; [|reflexivity].
    now rewrite app_assoc.
Qed.

Lemma after_snapshots (chunks : list State) :
  Turn.snapshots (Turn.after chunks Stop) = chunks /\
  Turn.ends_normally (Turn.after chunks Stop) = true.
Proof.
  induction chunks as [|c cs [IH1 IH2]]; [now split|].
  cbn. now rewrite IH1, IH2.
Qed.

Lemma drain_named_chunks (show : bool) (chunks : list State) :
  forallb Turn.calls_named chunks = true ->
  Relay.drain show (Turn.after chunks Stop) =
  (flat_map (Turn.fragments_of show) chunks, Returned tt).
Proof.
  intros H. destruct (after_snapshots chunks) as [Hs He].
  rewrite drain_undisturbed; [now rewrite Hs|].
  unfold Turn.undisturbed. now rewrite He, Hs.
Qed.

(** [astream_chat] is incremental: the fragments of a turn cut short after
    some snapshots open the fragments of every turn that starts with the
    same snapshots. *)
Theorem astream_chat_extends_shorter_turn
    (self cut : DeepAgent) (message : str)
    (chunks : list State) (rest : Stream) :
  show_tools cut = show_tools self ->
  astream (agent cut) message = Turn.after chunks Stop ->
  astream (agent self) message = Turn.after chunks rest ->
  exists tail,
    Gen.yielded (astream_chat self message) =
    Gen.yielded (astream_chat cut message) ++ tail.
Proof.
  intros Hshow Hcut Hself. unfold astream_chat.
  rewrite !relay_yielded, Hcut, Hself, Hshow, (drain_after _ chunks rest).
  unfold Gen.finish, Gen.yielded.
  destruct (Relay.drain (show_tools self) (Turn.after chunks Stop))
    as [ys [[]|e]]; cbn [fst snd].
  - rewrite app_nil_r, <- app_assoc. eexists. reflexivity.
  - exists []. now rewrite app_nil_r.
Qed.

Lemma astream_chat_extends_witness :
  exists tail,
    Gen.yielded (astream_chat (Sample.streaming true Sample.two_rounds)
                   (lit "hi")) =
    Gen.yielded (astream_chat
                   (Sample.streaming true
                      (Turn.after [Some Sample.round1; Some Sample.round2]
                         Stop)) (lit "hi")) ++ tail.
Proof.
  exact (astream_chat_extends_shorter_turn
           (Sample.streaming true Sample.two_rounds)
           (Sample.streaming true
              (Turn.after [Some Sample.round1; Some Sample.round2] Stop))
           (lit "hi") [Some Sample.round1; Some Sample.round2]
           (Next (Some Sample.round3)
              (Next (Some Sample.round4) (Next (Some Sample.round5) Stop)))
           eq_refl eq_refl eq_refl).
Defined.

(** With visibility enabled, a tool call without key ["name"] in the
    inspected message ends the turn: the fragments are those of the earlier
    snapshots, the invocations of the calls that precede the nameless one,
    and the error fragment for the missing key.  The tool outputs and the
    content of that snapshot, and all later snapshots, are not shown. *)
Theorem astream_chat_nameless_call_ends_turn
    (self : DeepAgent) (message : str) (chunks : list State)
    (bad : State) (m : Message) (rest : Stream) :
  show_tools self = true ->
  astream (agent self) message = Turn.after chunks (Next bad rest) ->
  forallb Turn.calls_named chunks = true ->
  Turn.inspected bad = Some m ->
  forallb Turn.has_name (tool_calls m) = false ->
  astream_chat self message =
  (flat_map (Turn.fragments_of true) chunks
     ++ map Turn.invocation_of (Turn.named_prefix (tool_calls m))
     ++ [ErrorFragment Relay.key_error],
   Returned tt).
Proof.
  intros Hshow Hstream Hchunks Hm Hbad. unfold astream_chat.
  rewrite Hstream, Hshow, drain_after, (drain_named_chunks _ _ Hchunks).
  cbn [Gen.finish Gen.yielded fst snd]. rewrite drain_next.
  rewrite relay_chunk_cases, Hm, Hbad. cbn [andb negb].
  rewrite gen_bind_raised. cbn. now rewrite <- app_assoc.
Qed.

Lemma astream_chat_nameless_call_witness :
  let nameless := {| tc_name := None; tc_args := None |} in
  let bad := Some [Sample.assistant "Done." [Sample.time_call; nameless]] in
  astream_chat
    (Sample.streaming true
       (Turn.after [Some Sample.round1]
          (Next bad (Next (Some Sample.round5) Stop))))
    (lit "hi") =
  ([Turn.invocation_of Sample.calc_call; Turn.invocation_of Sample.time_call;
    ErrorFragment (lit "'name'")], Returned tt).
Proof.
  cbv zeta.
  exact (astream_chat_nameless_call_ends_turn
           (Sample.streaming true
              (Turn.after [Some Sample.round1]
                 (Next (Some [Sample.assistant "Done."
                                [Sample.time_call;
                                 {| tc_name := None; tc_args := None |}]])
                    (Next (Some Sample.round5) Stop))))
           (lit "hi") [Some Sample.round1] _ _
           eq_refl eq_refl eq_refl eq_refl eq_refl).
Defined.

(** With visibility disabled the tool calls are never read: whenever the
    runtime's iterator stops by itself, the turn yields exactly the content
    of each inspected message, in order, and no error fragment, even if tool
    calls lack their name. *)
Theorem astream_chat_hidden_ignores_tool_calls
    (self : DeepAgent) (message : str) :
  show_tools self = false ->
  Turn.ends_normally (astream (agent self) message) = true ->
  astream_chat self message =
  (flat_map Turn.whole_content (Turn.snapshots (astream (agent self) message)),
   Returned tt).
Proof.
  intros Hshow Hend. unfold astream_chat. rewrite Hshow.
  assert (H : Relay.drain false (astream (agent self) message) =
              (flat_map Turn.whole_content
                 (Turn.snapshots (astream (agent self) message)),
               Returned tt)).
  { induction (astream (agent self) message) as [|e|chunk rest IH];
      cbn in Hend |- *; [reflexivity|discriminate|].
    fold (Relay.relay_chunk false chunk).
    rewrite relay_chunk_hidden, gen_bind_returned, (IH Hend). reflexivity. }
  now rewrite H.
Qed.

Lemma astream_chat_hidden_witness :
  let nameless := {| tc_name := None; tc_args := None |} in
  astream_chat
    (Sample.streaming false
       (Next (Some [Sample.assistant "Done." [nameless]]) Stop)) (lit "hi") =
  ([Content (lit "Done.")], Returned tt).
Proof.
  cbv zeta.
  exact (astream_chat_hidden_ignores_tool_calls
           (Sample.streaming false
              (Next (Some [Sample.assistant "Done."
                             [{| tc_name := None; tc_args := None |}]]) Stop))
           (lit "hi") eq_refl eq_refl).
Defined.

Lemma drain_prune (show : bool) (it : Stream) :
  Relay.drain show (Trace.prune it) = Relay.drain show it.
Proof.
  induction it as [|e|chunk rest IH]; try reflexivity.
  cbn [Trace.prune]. rewrite drain_next.
  destruct (Turn.inspected chunk) as [m|] eqn:Hm.
  - now rewrite drain_next, IH.
  - rewrite relay_chunk_cases, Hm, gen_bind_returned, IH.
    now destruct (Relay.drain show rest).
Qed.

(** Snapshots without a message list, with an empty one, or whose last
    message is not an assistant message leave no trace: a runtime that
    skips them gives the same turn. *)
Theorem astream_chat_passes_over_other_snapshots
    (self skipping : DeepAgent) (message : str) :
  show_tools skipping = show_tools self ->
  astream (agent skipping) message =
    Trace.prune (astream (agent self) message) ->
  astream_chat skipping message = astream_chat self message.
Proof.
  intros Hshow Hstream. unfold astream_chat.
  now rewrite Hstream, Hshow, drain_prune.
Qed.

Lemma astream_chat_passes_over_witness :
  astream_chat
    (Sample.streaming true
       (Next (Some Sample.round1) (Next (Some Sample.round3)
          (Next (Some Sample.round5) Stop)))) (lit "hi") =
  astream_chat (Sample.streaming true Sample.two_rounds) (lit "hi").
Proof.
  exact (astream_chat_passes_over_other_snapshots
           (Sample.streaming true Sample.two_rounds)
           (Sample.streaming true
              (Next (Some Sample.round1) (Next (Some Sample.round3)
                 (Next (Some Sample.round5) Stop))))
           (lit "hi") eq_refl eq_refl).
Defined.

(** In a turn in which nothing fails, each streaming method yields, snapshot
    by snapshot in the order of arrival: the invocations of the last
    message's tool calls in call order, then the outputs of the named
    messages in the order of the history, then the content (the first two
    only with visibility enabled).  [astream_chat] does so with the
    snapshots of [astream], [stream_chat] with those of [stream]. *)
Theorem streaming_order_of_fragments (self : DeepAgent) (message : str) :
  let per_snapshot (chunk : State) :=
    match Turn.inspected chunk with
    | Some m =>
        (if show_tools self
         then map Turn.invocation_of (tool_calls m)
                ++ map Turn.output_of
                     (filter Turn.is_named (Turn.messages_of chunk))
         else [])
          ++ (if truthy (content m) then [Content (content m)] else [])
    | None => []
    end in
  (Turn.undisturbed (astream (agent self) message) = true ->
   astream_chat self message =
     (flat_map per_snapshot (Turn.snapshots (astream (agent self) message)),
      Returned tt)) /\
  (Turn.undisturbed (stream (agent self) message) = true ->
   stream_chat self message =
     (flat_map per_snapshot (Turn.snapshots (stream (agent self) message)),
      Returned tt)).
Proof.
  intros per_snapshot.
  assert (H : forall it, Turn.undisturbed it = true ->
            Gen.try_except (Relay.drain (show_tools self) it) Relay.on_error
            = (flat_map per_snapshot (Turn.snapshots it), Returned tt)).
  { intros it Hu. rewrite (relay_undisturbed _ _ Hu). f_equal.
    apply flat_map_ext. intros chunk. subst per_snapshot.
    unfold Turn.fragments_of, Turn.announcements, Turn.whole_content.
    destruct (Turn.inspected chunk); [reflexivity|].
    now destruct (show_tools self). }
  split; intros Hu; [unfold astream_chat|unfold stream_chat]; now apply H.
Qed.

Lemma streaming_order_witness :
  let self :=
    Sample.session true
      {| invoke := fun _ => Raised (lit "not used");
         ainvoke := fun _ => Raised (lit "not used");
         stream := fun _ => Sample.hel_hello;
         astream := fun _ => Sample.text_then_silence |} in
  astream_chat self (lit "q") =
    ([Turn.invocation_of Sample.calc_call; Content (lit "Let me check.");
      ToolOutput (lit "calculate") (lit "Result: 8")], Returned tt) /\
  stream_chat self (lit "q") =
    ([Content (lit "Hel"); Content (lit "Hello")], Returned tt).
Proof.
  cbv zeta. split.
  - exact (proj1 (streaming_order_of_fragments
                    (Sample.session true
                       {| invoke := fun _ => Raised (lit "not used");
                          ainvoke := fun _ => Raised (lit "not used");
                          stream := fun _ => Sample.hel_hello;
                          astream := fun _ => Sample.text_then_silence |})
                    (lit "q")) eq_refl).
  - exact (proj2 (streaming_order_of_fragments
                    (Sample.session true
                       {| invoke := fun _ => Raised (lit "not used");
                          ainvoke := fun _ => Raised (lit "not used");
                          stream := fun _ => Sample.hel_hello;
                          astream := fun _ => Sample.text_then_silence |})
                    (lit "q")) eq_refl).
Defined.

(** A message is taken for a tool result by its non-empty [name] alone.  An
    assistant message that carries a name and ends the snapshot is therefore
    shown twice with visibility enabled: as the output of a tool of that
    name, cut to 100 characters, and then as content. *)
Theorem astream_chat_named_assistant_shown_twice
    (self : DeepAgent) (message : str)
    (history : list Message) (m : Message) (n : str) :
  show_tools self = true ->
  astream (agent self) message = Next (Some (history ++ [m])) Stop ->
  filter Turn.is_named history = [] ->
  Relay.isinstance m AIMessage = true ->
  tool_calls m = [] ->
  name m = Some n ->
  truthy n = true ->
  truthy (content m) = true ->
  astream_chat self message =
  ([ToolOutput n (Relay.preview (content m)); Content (content m)],
   Returned tt).
Proof.
  intros Hshow Hstream Hhist Hai Hcalls Hname Hn Hcontent.
  assert (Hm : Turn.inspected (Some (history ++ [m])) = Some m).
  { unfold Turn.inspected. now rewrite final_of_app, Hai. }
  unfold astream_chat. rewrite Hstream, Hshow, relay_undisturbed.
  - cbn [Turn.snapshots flat_map]. rewrite app_nil_r.
    unfold Turn.fragments_of, Turn.announcements, Turn.whole_content.
    rewrite Hm, Hcalls, Hcontent. cbn [Turn.messages_of map app].
    rewrite filter_app, Hhist. cbn [filter app].
    unfold Turn.is_named, truthy_opt. rewrite Hname, Hn.
    cbn [map app]. unfold Turn.output_of. now rewrite Hname.
  - unfold Turn.undisturbed, Turn.calls_named.
    cbn [Turn.ends_normally Turn.snapshots forallb andb].
    now rewrite Hm, Hcalls.
Qed.

Lemma astream_chat_named_assistant_witness :
  let answer :=
    {| msg_class := AIMessage; content := lit "42";
       name := Some (lit "researcher"); tool_calls := [] |} in
  astream_chat
    (Sample.streaming true (Next (Some ([Sample.human "q"] ++ [answer])) Stop))
    (lit "q") =
  ([ToolOutput (lit "researcher") (lit "42"); Content (lit "42")],
   Returned tt).
Proof.
  cbv zeta.
  exact (astream_chat_named_assistant_shown_twice
           (Sample.streaming true
              (Next (Some ([Sample.human "q"]
                       ++ [{| msg_class := AIMessage; content := lit "42";
                              name := Some (lit "researcher");
                              tool_calls := [] |}])) Stop))
           (lit "q") [Sample.human "q"] _
           eq_refl eq_refl eq_refl eq_refl eq_refl eq_refl eq_refl eq_refl).
Defined.

(** ** Further properties of the preview of tool output *)

Lemma preview_cases (s : str) :
  Relay.preview s =
  if 100 <? length s then firstn 100 s ++ lit "..." else s.
Proof.
  unfold Relay.preview. destruct s as [|c s]; [reflexivity|reflexivity].
Qed.

(** A preview is never longer than 103 characters, starts with the same 100
    characters as the output, and is its own preview. *)
Theorem preview_bounded_and_stable (s : str) :
  length (Relay.preview s) <= 103 /\
  firstn 100 (Relay.preview s) = firstn 100 s /\
  Relay.preview (Relay.preview s) = Relay.preview s.
Proof.
  rewrite !preview_cases.
  destruct (100 <? length s) eqn:E.
  - apply Nat.ltb_lt in E.
    assert (Hl : length (firstn 100 s) = 100)
      by (rewrite length_firstn; lia).
    assert (Hf : firstn 100 (firstn 100 s ++ lit "...") = firstn 100 s).
    { rewrite firstn_app, Hl, Nat.sub_diag, firstn_O, app_nil_r.
      apply firstn_all2. lia. }
    change (length (lit "...")) with 3 in *.
    repeat split.
    + rewrite length_app, Hl. change (length (lit "...")) with 3. lia.
    + exact Hf.
    + rewrite length_app, Hl.
      change (100 <? 100 + length (lit "...")) with true. cbv iota.
      now rewrite Hf.
  - rewrite E. apply Nat.ltb_ge in E. repeat split. lia.
Qed.

(** Cutting can lengthen: an output of 101 or 102 characters is shown with
    103 characters, and these are the only outputs whose preview is longer
    than the output itself. *)
Theorem preview_longer_than_output_iff (s : str) :
  length s < length (Relay.preview s) <-> 100 < length s < 103.
Proof.
  rewrite preview_cases.
  destruct (100 <? length s) eqn:E.
  - apply Nat.ltb_lt in E. rewrite length_app, length_firstn.
    change (length (lit "...")) with 3. lia.
  - apply Nat.ltb_ge in E. lia.
Qed.

(** * Further properties of the blocking chat *)

Lemma extract_inspected (response : State) (m : Message) :
  Turn.inspected response = Some m -> Blocking.extract response = content m.
Proof.
  unfold Turn.inspected, Blocking.extract.
  destruct response as [messages|]; [|discriminate].
  destruct (Relay.final_of messages) as [f|]; [|discriminate].
  destruct (Relay.isinstance f AIMessage); [|discriminate].
  now intros [= ->].
Qed.

Lemma last_text_app (l : list str) (s : str) :
  Trace.last_text (l ++ [s]) = Some s.
Proof.
  induction l as [|a l IH]; [reflexivity|].
  cbn [app Trace.last_text]. destruct (l ++ [s]) eqn:E; [|exact IH].
  destruct l; discriminate.
Qed.

(** A failure of the runtime call does not leave [chat] or [achat] as an
    exception: it is returned as ordinary text, ["Error: "] followed by the
    exception's text, like an answer of the assistant.  [chat] does so for
    a failure of [invoke], [achat] for a failure of [ainvoke], each whatever
    the other call would do. *)
Theorem chat_returns_failure_as_text
    (self : DeepAgent) (message : str) (e : exn) :
  (invoke (agent self) message = Raised e ->
   chat self message = Returned (lit "Error: " ++ e)) /\
  (ainvoke (agent self) message = Raised e ->
   achat self message = Returned (lit "Error: " ++ e)).
Proof.
  unfold chat, achat. split; now intros ->.
Qed.

Lemma chat_returns_failure_witness :
  let self :=
    Sample.session false
      {| invoke := fun _ => Returned (Some Sample.round5);
         ainvoke := fun _ => Raised (lit "connection refused");
         stream := fun _ => Stop;
         astream := fun _ => Stop |} in
  achat self (lit "q") = Returned (lit "Error: connection refused") /\
  chat (Sample.blocking (Raised (lit "connection refused"))) (lit "q") =
    Returned (lit "Error: connection refused").
Proof.
  cbv zeta. split.
  - exact (proj2 (chat_returns_failure_as_text
                    (Sample.session false
                       {| invoke := fun _ => Returned (Some Sample.round5);
                          ainvoke := fun _ => Raised (lit "connection refused");
                          stream := fun _ => Stop;
                          astream := fun _ => Stop |})
                    (lit "q") (lit "connection refused")) eq_refl).
  - exact (proj1 (chat_returns_failure_as_text
                    (Sample.blocking (Raised (lit "connection refused")))
                    (lit "q") (lit "connection refused")) eq_refl).
Defined.

(** The blocking and the streaming path agree on the answer.  When the state
    [invoke] returns is the last snapshot of the stream, nothing fails during
    the turn, and that state ends with an assistant message with text, then
    [chat] returns exactly the last content fragment [astream_chat] yields. *)
Theorem chat_is_last_streamed_content
    (self : DeepAgent) (message : str)
    (chunks : list State) (final_state : State) (m : Message) :
  astream (agent self) message = Turn.after (chunks ++ [final_state]) Stop ->
  invoke (agent self) message = Returned final_state ->
  forallb Turn.calls_named (chunks ++ [final_state]) = true ->
  Turn.inspected final_state = Some m ->
  truthy (content m) = true ->
  chat self message = Returned (content m) /\
  Trace.last_text (Turn.contents (Gen.yielded (astream_chat self message))) =
    Some (content m).
Proof.
  intros Hstream Hinvoke Hnamed Hm Hc. split.
  - unfold chat. rewrite Hinvoke. cbn. now rewrite (extract_inspected _ Hm).
  - unfold astream_chat.
    rewrite Hstream, (drain_named_chunks _ _ Hnamed).
    cbn [Gen.try_except Gen.yielded fst].
    rewrite contents_flat_map, flat_map_app. cbn [flat_map].
    rewrite app_nil_r. unfold Turn.shown_text at 2. rewrite Hm, Hc.
    apply last_text_app.
Qed.

Lemma chat_is_last_streamed_witness :
  let self :=
    Sample.session true
      (Sample.runtime Sample.two_rounds (Returned (Some Sample.round5))) in
  chat self (lit "hi") = Returned (lit "It is 8.") /\
  Trace.last_text (Turn.contents (Gen.yielded (astream_chat self (lit "hi"))))
    = Some (lit "It is 8.").
Proof.
  cbv zeta.
  exact (@chat_is_last_streamed_content
           (Sample.session true
              (Sample.runtime Sample.two_rounds
                 (Returned (Some Sample.round5))))
           (lit "hi")
           [Some Sample.round1; Some Sample.round2; Some Sample.round3;
            Some Sample.round4] (Some Sample.round5)
           (Sample.assistant "It is 8." [])
           eq_refl eq_refl eq_refl eq_refl eq_refl).
Defined.

(** * Further properties of the tools *)

Lemma calculate_cases (eval : str -> outcome PyValue) (expression : str) :
  calculate eval expression =
  if forallb (contains allowed_chars) expression then
    match eval expression with
    | Raised e => Returned (lit "Error calculating expression: " ++ e)
    | Returned v =>
        match format_value v with
        | Raised e => Returned (lit "Error calculating expression: " ++ e)
        | Returned shown => Returned (lit "Result: " ++ shown)
        end
    end
  else Returned rejection.
Proof.
  unfold calculate.
  destruct (forallb (contains allowed_chars) expression); [|reflexivity].
  cbn. destruct (eval expression) as [v|e]; [|reflexivity].
  cbn. now destruct (format_value v).
Qed.

(** The three kinds of answer of [calculate] cannot be confused.  The
    rejection message is returned exactly when some character is outside
    the allow-list; an answer starting with ["Result: "] exactly when every
    character is allowed, [eval] returned a value and the value could be
    shown.  An integer of more than 4300 digits cannot: the answer is then
    the error text for the limit on integer conversion. *)
Theorem calculate_answers_are_unambiguous
    (eval : str -> outcome PyValue) (expression : str) :
  (calculate eval expression = Returned rejection <->
   forallb (contains allowed_chars) expression = false) /\
  ((exists shown,
      calculate eval expression = Returned (lit "Result: " ++ shown)) <->
   forallb (contains allowed_chars) expression = true /\
   exists v shown,
     eval expression = Returned v /\ format_value v = Returned shown) /\
  (forall z,
     forallb (contains allowed_chars) expression = true ->
     eval expression = Returned (PyInt z) ->
     max_str_digits < length (of_N (Z.abs_N z)) ->
     calculate eval expression =
     Returned (lit "Error calculating expression: " ++ int_limit_error)).
Proof.
  rewrite calculate_cases.
  destruct (forallb (contains allowed_chars) expression).
  - destruct (eval expression) as [v|e].
    + destruct (format_value v) as [shown|e] eqn:Ef.
      * split; [split; [intros [=]|discriminate]|]. split.
        -- split; [|intros _; now exists shown].
           intros _. split; [reflexivity|]. now exists v, shown.
        -- intros z _ [= ->] Hz. unfold format_value in Ef.
           apply Nat.leb_gt in Hz. rewrite Hz in Ef. discriminate.
      * split; [split; [intros [=]|discriminate]|]. split.
        -- split; [intros [shown [=]]|].
           intros [_ (v' & shown & [= <-] & H)]. congruence.
        -- intros z _ [= ->] Hz. unfold format_value in Ef.
           apply Nat.leb_gt in Hz. rewrite Hz in Ef. now injection Ef as <-.
    + split; [split; [intros [=]|discriminate]|]. split.
      * split; [intros [shown [=]]|].
        intros [_ (v & shown & [=] & _)].
      * intros z _ [=].
  - split; [split; reflexivity|]. split.
    + split; [intros [shown [=]]|intros [[=] _]].
    + intros z [=].
Qed.

Lemma calculate_answers_witness :
  calculate (fun _ => Returned (PyInt (10 ^ 4300))) (lit "10**4300") =
  Returned (lit "Error calculating expression: " ++ int_limit_error).
Proof.
  apply (proj2 (proj2 (calculate_answers_are_unambiguous
                         (fun _ => Returned (PyInt (10 ^ 4300)))
                         (lit "10**4300"))) (10 ^ 4300)%Z);
    [reflexivity|reflexivity|].
  vm_compute. apply Nat.leb_le. reflexivity.
Defined.

(** Blank input is not stopped by the allow-list: an expression made of
    spaces only, the empty one included, is handed to [eval], and the answer
    is whatever [eval] makes of it. *)
Theorem calculate_hands_blank_input_to_eval
    (eval : str -> outcome PyValue) (n : nat) :
  calculate eval (repeat 32%N n) =
  match eval (repeat 32%N n) with
  | Raised e => Returned (lit "Error calculating expression: " ++ e)
  | Returned v =>
      match format_value v with
      | Raised e => Returned (lit "Error calculating expression: " ++ e)
      | Returned shown => Returned (lit "Result: " ++ shown)
      end
  end.
Proof.
  rewrite calculate_cases.
  assert (forallb (contains allowed_chars) (repeat 32%N n) = true) as ->;
    [|reflexivity].
  induction n as [|n IH]; [reflexivity|]. cbn [repeat forallb].
  now rewrite IH.
Qed.

(** [web_search] looks at nothing but the keys [title], [body], [href] and
    [hostname] of each hit, and never at its [time] argument: hits that
    agree on these four keys give the same answer, whatever else they
    contain and whatever time filter was asked for. *)
Theorem web_search_reads_four_keys_only
    (json_dumps : list FormattedResult -> outcome str)
    (query : str) (max_results : Z) (region safesearch : str)
    (time time' : option str) (hits hits' : list Dict) :
  Forall2 same_fields hits hits' ->
  web_search (fixed_hits hits) json_dumps query max_results region
    safesearch time =
  web_search (fixed_hits hits') json_dumps query max_results region
    safesearch time'.
Proof.
  intros H. unfold web_search, fixed_hits. cbn [Outcome.bind].
  assert (map format_result hits = map format_result hits') as ->;
    [|reflexivity].
  induction H as [|hit hit' l l' (Ht & Hb & Hh & Hn) _ IH]; [reflexivity|].
  cbn [map]. rewrite IH. f_equal. unfold format_result.
  now rewrite Ht, Hb, Hh, Hn.
Qed.

Lemma web_search_reads_four_keys_witness :
  let hit := [(lit "title", lit "Rocq");
              (lit "href", lit "https://rocq-prover.org")] in
  let hit' := [(lit "href", lit "https://rocq-prover.org");
               (lit "score", lit "0.9"); (lit "title", lit "Rocq");
               (lit "body", [])] in
  web_search (fixed_hits [hit]) Fixture.one_line_each (lit "rocq") 5%Z
    (lit "us-en") (lit "moderate") None =
  web_search (fixed_hits [hit']) Fixture.one_line_each (lit "rocq") 5%Z
    (lit "us-en") (lit "moderate") (Some (lit "d")).
Proof.
  cbv zeta.
  apply web_search_reads_four_keys_only.
  repeat constructor.
Defined.

(** * Further properties of the constructor *)

(** The system prompt handed to the framework: the caller's if it is not
    empty, otherwise [CUSTOM_SYSTEM_PROMPT] if that is set and not empty,
    otherwise the default text.  An empty prompt counts as none, so the
    framework never receives an empty prompt unless the default text itself
    is empty. *)
Theorem system_prompt_resolution
    (config : Config) (default_system_prompt : str) (the_llm : LLM)
    (all_tools : list Tool) (system_prompt : option str) (longterm : bool) :
  let passed :=
    kw_system_prompt
      (agent_kwargs config default_system_prompt the_llm all_tools
         system_prompt longterm) in
  (truthy_opt system_prompt = true -> Some passed = system_prompt) /\
  (truthy_opt system_prompt = false ->
   truthy_opt (CUSTOM_SYSTEM_PROMPT config) = true ->
   Some passed = CUSTOM_SYSTEM_PROMPT config) /\
  (truthy_opt system_prompt = false ->
   truthy_opt (CUSTOM_SYSTEM_PROMPT config) = false ->
   passed = default_system_prompt) /\
  (default_system_prompt <> [] -> passed <> []).
Proof.
  cbv zeta. unfold agent_kwargs. cbn [kw_system_prompt].
  destruct system_prompt as [[|c s]|];
    destruct (CUSTOM_SYSTEM_PROMPT config) as [[|c' s']|];
    cbn; repeat split; intros; try discriminate; try reflexivity;
    try assumption.
Qed.

Lemma system_prompt_resolution_witness :
  kw_system_prompt
    (agent_kwargs Sample.config (lit "You are a helpful AI assistant")
       {| llm_model := lit "llama3"; llm_base_url := lit "http://h";
          llm_temperature_tenths := 1 |}
       default_tools (Some []) false) <> [].
Proof.
  apply (system_prompt_resolution Sample.config
           (lit "You are a helpful AI assistant")
           {| llm_model := lit "llama3"; llm_base_url := lit "http://h";
              llm_temperature_tenths := 1 |}
           default_tools (Some []) false).
  discriminate.
Defined.

Lemma relay_hidden_kinds (it : Stream) :
  Forall (fun f => is_content f = true \/ is_error f = true)
    (Gen.yielded (Gen.try_except (Relay.drain false it) Relay.on_error)).
Proof.
  rewrite relay_yielded. apply Forall_app. split.
  - apply drain_Forall. intros chunk _. rewrite relay_chunk_hidden.
    unfold Turn.whole_content. cbn [Gen.yielded fst].
    destruct (Turn.inspected chunk) as [m|]; [|constructor].
    destruct (truthy (content m)); constructor; [now left|constructor].
  - destruct (Gen.finish (Relay.drain false it)); constructor;
      [now right|constructor].
Qed.

(** An agent constructed without saying anything about [show_tools] keeps
    tools hidden, whatever the configuration: both streaming methods of such
    an agent yield content and error fragments only. *)
Theorem agent_constructed_by_default_hides_tools
    (config : Config)
    (ChatOllama : str -> str -> N -> outcome LLM)
    (create_deep_agent : AgentKwargs -> outcome Runtime)
    (default_system_prompt : str)
    (model_name' base_url' : option str) (tools' : option (list Tool))
    (system_prompt : option str) (use_longterm_memory' : option bool)
    (self : DeepAgent) (message : str) :
  __init__ config ChatOllama create_deep_agent default_system_prompt
    model_name' base_url' tools' system_prompt use_longterm_memory' None
    = Returned self ->
  show_tools self = false /\
  Forall (fun f => is_content f = true \/ is_error f = true)
    (Gen.yielded (astream_chat self message)) /\
  Forall (fun f => is_content f = true \/ is_error f = true)
    (Gen.yielded (stream_chat self message)).
Proof.
  unfold __init__. intros H.
  destruct (ChatOllama _ _ _) as [the_llm|e]; cbn [Outcome.bind] in H;
    [|discriminate].
  destruct (create_deep_agent _) as [the_agent|e]; cbn [Outcome.bind] in H;
    [|discriminate].
  injection H as <-. cbn [show_tools or_else].
  split; [reflexivity|].
  unfold astream_chat, stream_chat. cbn [show_tools or_else agent].
  split; apply relay_hidden_kinds.
Qed.

Lemma agent_constructed_by_default_witness :
  exists self,
    __init__ Sample.config Sample.accepting_ChatOllama
      Sample.accepting_create_deep_agent (lit "prompt")
      None None None None (Some true) None = Returned self /\
    show_tools self = false.
Proof.
  eexists. split; [reflexivity|].
  exact (proj1 (@agent_constructed_by_default_hides_tools
                  Sample.config Sample.accepting_ChatOllama
                  Sample.accepting_create_deep_agent (lit "prompt")
                  None None None None (Some true) _ (lit "q") eq_refl)).
Defined.

(** * Properties of the configuration *)

Lemma py_eqb_eq (a b : str) : Py.eqb a b = true <-> a = b.
Proof.
  unfold Py.eqb. destruct (list_eq_dec N.eq_dec a b); split; intros;
    congruence.
Qed.

Lemma truthy_iff (s : str) : truthy s = true <-> s <> [].
Proof. destruct s; cbn; split; intros; congruence. Qed.

(** The class body fails exactly when a required variable is missing or
    empty, or the number of results cannot be read.  [OLLAMA_BASE_URL] is
    examined first, so its message is the one raised when both variables are
    missing.  Settings that were loaded have a non-empty base address and a
    non-empty model name, those of the environment. *)
Theorem class_body_required_variables
    (lower_beyond : str -> str) (int_beyond : str -> outcome Z)
    (env : ConfigModule.Environ) :
  let loaded := ConfigModule.class_body lower_beyond int_beyond env in
  (truthy_opt (env (lit "OLLAMA_BASE_URL")) = false ->
   loaded = Raised ConfigModule.base_url_required) /\
  (truthy_opt (env (lit "OLLAMA_BASE_URL")) = true ->
   truthy_opt (env (lit "OLLAMA_MODEL")) = false ->
   loaded = Raised ConfigModule.model_required) /\
  (forall settings, loaded = Returned settings ->
     env (lit "OLLAMA_BASE_URL") = Some (OLLAMA_BASE_URL (core settings)) /\
     env (lit "OLLAMA_MODEL") = Some (OLLAMA_MODEL (core settings)) /\
     OLLAMA_BASE_URL (core settings) <> [] /\
     OLLAMA_MODEL (core settings) <> [] /\
     CUSTOM_SYSTEM_PROMPT (core settings) = env (lit "CUSTOM_SYSTEM_PROMPT")) /\
  ((exists settings, loaded = Returned settings) <->
   truthy_opt (env (lit "OLLAMA_BASE_URL")) = true /\
   truthy_opt (env (lit "OLLAMA_MODEL")) = true /\
   exists n,
     Py.int int_beyond
       (ConfigModule.getenv env (lit "WEB_SEARCH_MAX_RESULTS") (lit "5"))
     = Returned n).
Proof.
  cbv zeta. unfold ConfigModule.class_body.
  destruct (env (lit "OLLAMA_BASE_URL")) as [b|] eqn:Eb.
  2: { cbn. split; [reflexivity|]. split; [discriminate|].
       split; [discriminate|]. split; [intros [s H]|intros [H _]];
         discriminate. }
  cbn [truthy_opt or_else]. destruct (truthy b) eqn:Tb; cbn [negb].
  2: { split; [reflexivity|]. split; [discriminate|].
       split; [discriminate|]. split; [intros [s H]|intros [H _]];
         discriminate. }
  destruct (env (lit "OLLAMA_MODEL")) as [m|] eqn:Em.
  2: { cbn. split; [discriminate|]. split; [reflexivity|].
       split; [discriminate|]. split; [intros [s H]|intros (_ & H & _)];
         discriminate. }
  cbn [truthy_opt or_else]. destruct (truthy m) eqn:Tm; cbn [negb].
  2: { split; [discriminate|]. split; [reflexivity|].
       split; [discriminate|]. split; [intros [s H]|intros (_ & H & _)];
         discriminate. }
  apply truthy_iff in Tb, Tm.
  destruct (Py.int int_beyond _) as [n|e]; cbn [Outcome.bind].
  - split; [discriminate|]. split; [discriminate|]. split.
    + intros settings [= <-]. cbn. repeat split; assumption.
    + split; [intros _|intros _; eexists; reflexivity].
      repeat split. now exists n.
  - split; [discriminate|]. split; [discriminate|].
    split; [discriminate|]. split; [intros [s H]|intros (_ & _ & n & H)];
      discriminate.
Qed.

Lemma class_body_required_witness :
  ConfigModule.class_body Fixture.no_lower Fixture.no_int Fixture.empty_env =
    Raised ConfigModule.base_url_required /\
  exists settings,
    ConfigModule.class_body Fixture.no_lower Fixture.no_int
      (Fixture.env "false") = Returned settings.
Proof.
  split.
  - exact (proj1 (class_body_required_variables Fixture.no_lower
                    Fixture.no_int Fixture.empty_env) eq_refl).
  - apply (proj2 (proj2 (proj2 (class_body_required_variables
             Fixture.no_lower Fixture.no_int (Fixture.env "false"))))).
    split; [reflexivity|]. split; [reflexivity|]. eexists. reflexivity.
Defined.

(** Long-term memory is switched on by the word [true] in any mix of upper
    and lower case, and by nothing else: not by [1], [yes] or [on], not by
    [true] with a space around it, and not when the variable is unset. *)
Theorem use_longterm_memory_flag
    (lower_beyond : str -> str) (int_beyond : str -> outcome Z)
    (env : ConfigModule.Environ) (settings : Settings) :
  ConfigModule.class_body lower_beyond int_beyond env = Returned settings ->
  (env (lit "USE_LONGTERM_MEMORY") = None ->
   USE_LONGTERM_MEMORY (core settings) = false) /\
  (forall v, env (lit "USE_LONGTERM_MEMORY") = Some v ->
     forallb Py.is_ascii v = true ->
     (USE_LONGTERM_MEMORY (core settings) = true <->
      map Py.ascii_lower v = lit "true")).
Proof.
  unfold ConfigModule.class_body.
  destruct (negb (truthy_opt (env (lit "OLLAMA_BASE_URL"))));
    [discriminate|].
  destruct (negb (truthy_opt (env (lit "OLLAMA_MODEL")))); [discriminate|].
  destruct (Py.int int_beyond _) as [n|e]; cbn [Outcome.bind];
    [|discriminate].
  intros [= <-]. cbn [core USE_LONGTERM_MEMORY]. unfold ConfigModule.getenv.
  split.
  - now intros ->.
  - intros v -> Hv. unfold Py.lower. rewrite Hv. apply py_eqb_eq.
Qed.

Lemma use_longterm_memory_flag_witness :
  exists settings,
    ConfigModule.class_body Fixture.no_lower Fixture.no_int
      (Fixture.env "TrUe") = Returned settings /\
    USE_LONGTERM_MEMORY (core settings) = true.
Proof.
  eexists. split; [reflexivity|].
  apply (proj2 (@use_longterm_memory_flag Fixture.no_lower Fixture.no_int
                  (Fixture.env "TrUe") _ eq_refl) (lit "TrUe") eq_refl
           eq_refl).
  reflexivity.
Defined.

(** [validate] returns [True] exactly when the request for [/api/tags] under
    the configured base address is answered with status 200, and never
    returns [False]: every other outcome is an exception whose text is the
    heading and one line of explanation, naming the base address for a
    wrong status and quoting the failure of the request otherwise. *)
Theorem validate_succeeds_iff_status_200
    (requests_get : str -> outcome Z) (cfg : Config) :
  let url := OLLAMA_BASE_URL cfg ++ lit "/api/tags" in
  (ConfigModule.validate requests_get cfg = Returned true <->
   requests_get url = Returned 200%Z) /\
  ConfigModule.validate requests_get cfg <> Returned false /\
  (forall status, requests_get url = Returned status -> status <> 200%Z ->
     ConfigModule.validate requests_get cfg =
     Raised (ConfigModule.validation_failed ++ nl
               ++ lit "Ollama server not accessible at "
               ++ OLLAMA_BASE_URL cfg)) /\
  (forall e, requests_get url = Raised e ->
     ConfigModule.validate requests_get cfg =
     Raised (ConfigModule.validation_failed ++ nl
               ++ lit "Cannot connect to Ollama server: " ++ e)).
Proof.
  cbv zeta. unfold ConfigModule.validate.
  destruct (requests_get _) as [status|e];
    cbn [Outcome.bind Outcome.try_except].
  - destruct (Z.eqb_spec status 200) as [->|Hne]; cbn.
    + split; [split; reflexivity|]. split; [discriminate|].
      split; [intros s [= <-] Hs; congruence|discriminate].
    + split; [split; [discriminate|intros [= H]; congruence]|].
      split; [discriminate|].
      split; [now intros s [= <-] _|discriminate].
  - cbn. split; [split; discriminate|]. split; [discriminate|].
    split; [discriminate|now intros e' [= <-]].
Qed.

(** * Properties of the command line *)

Lemma for_each_yield {A Y} (f : A -> Y) (l : list A) :
  Gen.for_each l (fun x => Gen.yield (f x)) = (map f l, Returned tt).
Proof.
  induction l as [|a l IH]; [reflexivity|].
  cbn [Gen.for_each]. rewrite IH. reflexivity.
Qed.

Lemma print_chunks_of_relay (show : bool) (it : Stream) :
  Cli.print_chunks (Gen.try_except (Relay.drain show it) Relay.on_error) =
  (map text
     (Gen.yielded (Gen.try_except (Relay.drain show it) Relay.on_error)),
   Returned tt).
Proof.
  unfold Cli.print_chunks, Cli.print_end.
  rewrite relay_finish, (for_each_yield text). cbn.
  now rewrite ?app_nil_r.
Qed.

(** What one pass through the interactive loop writes, and whether the loop
    goes on. *)
Lemma iteration_cases (lower_beyond : str -> str) (settings : Settings)
    (agent : DeepAgent) (raw : str) :
  Cli.iteration lower_beyond settings agent raw =
  let user_input := Py.strip raw in
  if Cli.is_quit lower_beyond user_input then
    ([Cli.goodbye ++ nl], Returned Break)
  else if Cli.is_help lower_beyond user_input then
    (map ConfigModule.line Cli.help_lines, Returned Continue)
  else if Cli.is_config lower_beyond user_input then
    (ConfigModule.print_config settings, Returned Continue)
  else if negb (truthy user_input) then
    ([], Returned Continue)
  else
    (([Cli.robot] ++ lit " Agent: ")
       :: map text (Gen.yielded (astream_chat agent user_input)) ++ [nl],
     Returned Continue).
Proof.
  cbv zeta. unfold Cli.iteration.
  destruct (Cli.is_quit lower_beyond (Py.strip raw)); [reflexivity|].
  destruct (Cli.is_help lower_beyond (Py.strip raw)); [reflexivity|].
  destruct (Cli.is_config lower_beyond (Py.strip raw)).
  { unfold Cli.print_all. rewrite (for_each_yield (fun l : str => l)).
    cbn. now rewrite map_id, ?app_nil_r. }
  destruct (truthy (Py.strip raw)); [|reflexivity]. cbn [negb].
  unfold astream_chat. rewrite print_chunks_of_relay.
  cbn. now rewrite ?app_nil_r.
Qed.

(** In single-query mode the handler for exceptions is never entered,
    because the agent's methods contain their own failures.  With streaming
    the output is the two heading lines, the label, the text of every
    fragment [astream_chat] yields (an error fragment included), and a line
    feed; without streaming it is the heading and the label followed by what
    [achat] returns. *)
Theorem single_query_mode_output (agent : DeepAgent) (query : str) :
  let heading :=
    [[Cli.glass] ++ lit " Query: " ++ query ++ nl; Py.times "-" 30 ++ nl] in
  Cli.single_query_mode agent query true =
    (heading ++ [[Cli.robot] ++ lit " Response: "]
       ++ map text (Gen.yielded (astream_chat agent query)) ++ [nl],
     Returned tt) /\
  exists response,
    achat agent query = Returned response /\
    Cli.single_query_mode agent query false =
      (heading ++ [[Cli.robot] ++ lit " Response: " ++ response ++ nl],
       Returned tt).
Proof.
  cbv zeta. unfold Cli.single_query_mode. split.
  - unfold astream_chat. rewrite print_chunks_of_relay. cbn.
    now rewrite <- ?app_assoc, ?app_nil_r.
  - destruct (chat_never_raises agent query) as [_ [response Hr]].
    exists response. split; [exact Hr|]. rewrite Hr. cbn.
    now rewrite <- ?app_assoc.
Qed.

Lemma single_query_mode_witness :
  Cli.single_query_mode
    (Sample.streaming false (Raises (lit "connection reset"))) (lit "hi")
    true =
  ([[Cli.glass] ++ lit " Query: hi" ++ nl; Py.times "-" 30 ++ nl;
    [Cli.robot] ++ lit " Response: "; lit "Error: connection reset"; nl],
   Returned tt).
Proof.
  exact (proj1 (single_query_mode_output
                  (Sample.streaming false (Raises (lit "connection reset")))
                  (lit "hi"))).
Defined.

Lemma is_quit_ascii (lower_beyond : str -> str) (user_input : str) :
  forallb Py.is_ascii user_input = true ->
  Cli.is_quit lower_beyond user_input = true <->
  In (map Py.ascii_lower user_input) [lit "quit"; lit "exit"; lit "q"].
Proof.
  intros Ha. unfold Cli.is_quit, Py.lower. rewrite Ha, existsb_exists.
  split.
  - intros (w & Hw & He). apply py_eqb_eq in He. now rewrite He.
  - intros Hin. eexists. split; [exact Hin|]. now apply py_eqb_eq.
Qed.

(** The words [quit], [exit] and [q], in any mix of upper and lower case
    and with any white space around them, end the interactive session at
    once: the farewell is written, the agent is not consulted, and nothing
    typed afterwards is read. *)
Theorem interactive_quit_ends_session
    (lower_beyond : str -> str) (settings : Settings) (agent : DeepAgent)
    (raw : str) (rest : Script) :
  forallb Py.is_ascii (Py.strip raw) = true ->
  In (map Py.ascii_lower (Py.strip raw)) [lit "quit"; lit "exit"; lit "q"] ->
  Cli.loop lower_beyond settings agent (Typed raw rest) =
  ([Cli.prompt; Cli.goodbye ++ nl], Exit 0).
Proof.
  intros Ha Hin. cbn [Cli.loop]. rewrite iteration_cases. cbv zeta.
  now rewrite (proj2 (is_quit_ascii lower_beyond _ Ha) Hin).
Qed.

Lemma interactive_quit_witness :
  Cli.loop Fixture.no_lower Fixture.settings
    (Sample.streaming true Sample.two_rounds)
    (Typed (lit "  QuIt ") (Typed (lit "never read") Eof)) =
  ([Cli.prompt; Cli.goodbye ++ nl], Exit 0).
Proof.
  apply interactive_quit_ends_session; [reflexivity|].
  left. reflexivity.
Defined.

Lemma iteration_control (lower_beyond : str -> str) (settings : Settings)
    (agent : DeepAgent) (raw : str) :
  Gen.finish (Cli.iteration lower_beyond settings agent raw) =
  Returned (if Cli.is_quit lower_beyond (Py.strip raw)
            then Break else Continue).
Proof.
  rewrite iteration_cases. cbv zeta.
  destruct (Cli.is_quit _ _); [reflexivity|].
  destruct (Cli.is_help _ _); [reflexivity|].
  destruct (Cli.is_config _ _); [reflexivity|].
  now destruct (truthy _).
Qed.

Lemma loop_typed (lower_beyond : str -> str) (settings : Settings)
    (agent : DeepAgent) (raw : str) (rest : Script) :
  Cli.loop lower_beyond settings agent (Typed raw rest) =
  if Cli.is_quit lower_beyond (Py.strip raw) then
    ([Cli.prompt; Cli.goodbye ++ nl], Exit 0)
  else
    (Cli.prompt
       :: Gen.yielded (Cli.iteration lower_beyond settings agent raw)
       ++ fst (Cli.loop lower_beyond settings agent rest),
     snd (Cli.loop lower_beyond settings agent rest)).
Proof.
  cbn [Cli.loop].
  pose proof (iteration_control lower_beyond settings agent raw) as Hc.
  pose proof (iteration_cases lower_beyond settings agent raw) as Hi.
  cbv zeta in Hi.
  destruct (Cli.is_quit lower_beyond (Py.strip raw)).
  - now rewrite Hi.
  - unfold Gen.finish, Gen.yielded in *.
    destruct (Cli.iteration lower_beyond settings agent raw) as [w r].
    cbn [fst snd] in *. subst r.
    now destruct (Cli.loop lower_beyond settings agent rest).
Qed.

Lemma loop_ending (lower_beyond : str -> str) (settings : Settings)
    (agent : DeepAgent) (script : Script) :
  snd (Cli.loop lower_beyond settings agent script) =
  if Cli.reaches_eof lower_beyond script then Spins Cli.eof_cycle
  else if Cli.interrupted lower_beyond script then Interrupted
  else Exit 0.
Proof.
  induction script as [raw rest IH| |]; try reflexivity.
  rewrite loop_typed. cbn [Cli.reaches_eof Cli.interrupted].
  now destruct (Cli.is_quit lower_beyond (Py.strip raw)).
Qed.

(** Interactive mode does not end when the input ends.  A session ends
    with status 0 when the user types a quit word.  When the input is
    exhausted first, for instance piped input without a quit word, the loop
    goes on forever, writing the prompt and the end-of-file error again and
    again.  When [input()] raises [KeyboardInterrupt] first, the loop is
    left through the handler of that exception, and the exit status is no
    longer the program's to decide. *)
Theorem interactive_mode_spins_at_end_of_input
    (lower_beyond : str -> str) (settings : Settings) (agent : DeepAgent)
    (script : Script) :
  snd (Cli.interactive_mode lower_beyond settings agent script) =
    (if Cli.reaches_eof lower_beyond script then Spins Cli.eof_cycle
     else if Cli.interrupted lower_beyond script then Interrupted
     else Exit 0) /\
  (forall rest,
     snd (Cli.interactive_mode lower_beyond settings agent
            (Typed (lit "quit") rest)) = Exit 0) /\
  snd (Cli.interactive_mode lower_beyond settings agent Eof)
    = Spins Cli.eof_cycle /\
  Cli.eof_cycle =
    [nl ++ [Cli.bust] ++ lit " You: ";
     nl ++ [Cli.cross] ++ lit " Error: EOF when reading a line" ++ nl].
Proof.
  assert (H : forall s,
            snd (Cli.interactive_mode lower_beyond settings agent s) =
            if Cli.reaches_eof lower_beyond s then Spins Cli.eof_cycle
            else if Cli.interrupted lower_beyond s then Interrupted
            else Exit 0).
  { intros s. unfold Cli.interactive_mode.
    pose proof (loop_ending lower_beyond settings agent s) as H.
    now destruct (Cli.loop lower_beyond settings agent s). }
  split; [apply H|]. split; [|split; [apply H|reflexivity]].
  intros rest. rewrite H. reflexivity.
Qed.



(** ** White space around a line *)

Lemma lstrip_clean (s : str) : clean_left (Py.lstrip s).
Proof.
  induction s as [|c s IH]; [exact I|].
  cbn [Py.lstrip]. destruct (Py.isspace c) eqn:E; [exact IH|exact E].
Qed.

Lemma lstrip_of_clean (s : str) : clean_left s -> Py.lstrip s = s.
Proof. destruct s as [|c s]; cbn; [reflexivity|]. now intros ->. Qed.

Lemma lstrip_app_clean (l m : str) :
  m <> [] -> clean_left m -> Py.lstrip (l ++ m) = Py.lstrip l ++ m.
Proof.
  intros Hm Hc. induction l as [|c l IH].
  - cbn. now apply lstrip_of_clean.
  - cbn [app Py.lstrip]. now destruct (Py.isspace c).
Qed.

Lemma rstrip_keeps_clean_left (s : str) :
  clean_left s -> clean_left (Py.rstrip s).
Proof.
  destruct s as [|c s]; [intros _; exact I|]. cbn [clean_left]. intros Hc.
  unfold Py.rstrip. cbn [rev].
  rewrite (@lstrip_app_clean (rev s) [c]); [|discriminate|exact Hc].
  rewrite rev_app_distr. exact Hc.
Qed.

Lemma strip_strip (s : str) : Py.strip (Py.strip s) = Py.strip s.
Proof.
  unfold Py.strip.
  rewrite (lstrip_of_clean (Py.rstrip (Py.lstrip s)))
    by apply rstrip_keeps_clean_left, lstrip_clean.
  unfold Py.rstrip. rewrite rev_involutive.
  now rewrite (lstrip_of_clean _ (lstrip_clean _)).
Qed.

(** What reaches the agent in the interactive loop.  A line whose stripped
    text is not empty and not one of the commands is answered by
    [astream_chat] on that stripped text, in the case it was typed in: the
    loop writes the label, the text of each fragment and a line feed, and
    goes on; the text sent has no white space left at either end.  Every
    other line is dealt with without the agent. *)
Theorem interactive_query_is_the_stripped_line
    (lower_beyond : str -> str) (settings : Settings)
    (agent : DeepAgent) (raw : str) :
  let user_input := Py.strip raw in
  let command :=
    Cli.is_quit lower_beyond user_input
    || Cli.is_help lower_beyond user_input
    || Cli.is_config lower_beyond user_input in
  (command = false -> user_input <> [] ->
   Cli.iteration lower_beyond settings agent raw =
     (([Cli.robot] ++ lit " Agent: ")
        :: map text (Gen.yielded (astream_chat agent user_input)) ++ [nl],
      Returned Continue) /\
   Py.strip user_input = user_input /\
   forall rest,
     fst (Cli.loop lower_beyond settings agent (Typed raw rest)) =
     Cli.prompt
       :: (([Cli.robot] ++ lit " Agent: ")
             :: map text (Gen.yielded (astream_chat agent user_input))
             ++ [nl])
       ++ fst (Cli.loop lower_beyond settings agent rest)) /\
  (command = true \/ user_input = [] ->
   forall other : DeepAgent,
     Cli.iteration lower_beyond settings agent raw =
     Cli.iteration lower_beyond settings other raw).
Proof.
  cbv zeta. split.
  - intros Hc Hu. apply orb_false_elim in Hc as [Hc Hcfg].
    apply orb_false_elim in Hc as [Hq Hh].
    assert (Hi : Cli.iteration lower_beyond settings agent raw =
              (([Cli.robot] ++ lit " Agent: ")
                 :: map text
                      (Gen.yielded (astream_chat agent (Py.strip raw)))
                 ++ [nl], Returned Continue)).
    { rewrite iteration_cases. cbv zeta. rewrite Hq, Hh, Hcfg.
      now rewrite (proj2 (truthy_iff _) Hu). }
    split; [exact Hi|]. split; [apply strip_strip|].
    intros rest. rewrite loop_typed, Hq, Hi. reflexivity.
  - intros H other. rewrite !iteration_cases. cbv zeta.
    destruct (Cli.is_quit lower_beyond (Py.strip raw)); [reflexivity|].
    destruct (Cli.is_help lower_beyond (Py.strip raw)); [reflexivity|].
    destruct (Cli.is_config lower_beyond (Py.strip raw)); [reflexivity|].
    destruct H as [H| ->]; [discriminate|reflexivity].
Qed.

Lemma interactive_query_witness :
  Cli.iteration Fixture.no_lower Fixture.settings
    (Sample.streaming false Sample.hel_hello) (lit "  Hello There ") =
  (([Cli.robot] ++ lit " Agent: ")
     :: map text
          (Gen.yielded
             (astream_chat (Sample.streaming false Sample.hel_hello)
                (lit "Hello There"))) ++ [nl],
   Returned Continue).
Proof.
  apply (proj1 (interactive_query_is_the_stripped_line Fixture.no_lower
                  Fixture.settings
                  (Sample.streaming false Sample.hel_hello)
                  (lit "  Hello There ")));
    [reflexivity|discriminate].
Defined.

(** The exit status of the program.  It is 1 in exactly three cases: when
    the import of the configuration raises; with [--validate] (and no
    [--config]) when the server does not answer with status 200; and, with
    neither flag, when the agent cannot be constructed.  It is 2 exactly
    when the parser rejects the command line.  Once the agent exists the
    status is 0 whatever happens to the query, unless the session never
    ends or is left through the handler of [KeyboardInterrupt]. *)
Theorem program_exit_status
    (lower_beyond : str -> str)
    (requests_get : str -> outcome Z)
    (ChatOllama : str -> str -> N -> outcome LLM)
    (create_deep_agent : AgentKwargs -> outcome Runtime)
    (default_system_prompt : str)
    (imported : outcome Settings) (parsed : Parse) (script : Script) :
  let ending :=
    snd (Cli.program lower_beyond requests_get ChatOllama create_deep_agent
           default_system_prompt imported parsed script) in
  (ending = Exit 1 <->
   match imported with
   | Raised _ => True
   | Returned settings =>
       match parsed with
       | Parsed args =>
           arg_config args = false /\
           ((arg_validate args = true /\
             requests_get (OLLAMA_BASE_URL (core settings) ++ lit "/api/tags")
               <> Returned 200%Z) \/
            (arg_validate args = false /\
             exists e,
               __init__ (core settings) ChatOllama create_deep_agent
                 default_system_prompt
                 (Some (or_else (arg_model args)
                          (OLLAMA_MODEL (core settings))))
                 (Some (or_else (arg_base_url args)
                          (OLLAMA_BASE_URL (core settings))))
                 None (CUSTOM_SYSTEM_PROMPT (core settings))
                 (Some (USE_LONGTERM_MEMORY (core settings)))
                 (Some (arg_show_tools args)) = Raised e))
       | _ => False
       end
   end) /\
  (ending = Exit 2 <->
   exists settings, imported = Returned settings /\ parsed = UsageError) /\
  (ending = Exit 0 \/ ending = Exit 1 \/ ending = Exit 2 \/
   ending = Spins Cli.eof_cycle \/ ending = Interrupted).
Proof.
  cbv zeta. unfold Cli.program.
  destruct imported as [settings|e0].
  2: { cbn [snd]. split; [split; [intros _; exact I|reflexivity]|].
       split; [|right; now left].
       split; [discriminate|intros [s [H _]]; discriminate]. }
  destruct parsed as [args|help|].
  2: { cbn [snd]. split; [split; [discriminate|contradiction]|].
       split; [|now left].
       split; [discriminate|intros [s [_ H]]; discriminate]. }
  2: { cbn [snd]. split; [split; [discriminate|contradiction]|].
       split; [|right; right; now left].
       split; [intros _; now exists settings|reflexivity]. }
  assert (Hno2 : forall en : Ending,
            en <> Exit 2 ->
            (en = Exit 2 <->
             exists s, Returned settings = Returned s /\
                       Parsed args = UsageError)).
  { intros en Hx. split; [contradiction|intros [s [_ H]]; discriminate]. }
  unfold Cli.main.
  destruct (arg_config args).
  { cbn [snd]. split; [|split; [apply Hno2; discriminate|now left]].
    split; [discriminate|intros [H _]; discriminate]. }
  destruct (arg_validate args).
  { unfold ConfigModule.validate.
    destruct (requests_get _) as [status|e];
      cbn [Outcome.bind Outcome.try_except].
    - destruct (Z.eqb_spec status 200) as [->|Hne]; cbn.
      + split; [|split; [apply Hno2; discriminate|now left]].
        split; [discriminate|].
        intros [_ [[_ H]|[H _]]]; [congruence|discriminate].
      + split; [|split; [apply Hno2; discriminate|right; now left]].
        split; [|reflexivity].
        intros _. split; [reflexivity|]. left.
        split; [reflexivity|]. intros [= H]. congruence.
    - cbn. split; [|split; [apply Hno2; discriminate|right; now left]].
      split; [|reflexivity].
      intros _. split; [reflexivity|]. left.
      split; [reflexivity|discriminate]. }
  destruct (__init__ _ _ _ _ _ _ _ _ _ _) as [agent|e].
  - destruct (truthy_opt (arg_query args)).
    + cbn [snd]. split; [|split; [apply Hno2; discriminate|now left]].
      split; [discriminate|].
      intros [_ [[H _]|[_ [e H]]]]; discriminate.
    + pose proof (loop_ending lower_beyond settings agent script) as Hl.
      unfold Cli.interactive_mode.
      destruct (Cli.loop lower_beyond settings agent script) as [w ending].
      cbn [snd] in *. subst ending.
      destruct (Cli.reaches_eof lower_beyond script);
        [|destruct (Cli.interrupted lower_beyond script)].
      * split; [|split; [apply Hno2; discriminate|do 3 right; now left]].
        split; [discriminate|].
        intros [_ [[H _]|[_ [e H]]]]; discriminate.
      * split; [|split; [apply Hno2; discriminate|do 4 right; reflexivity]].
        split; [discriminate|].
        intros [_ [[H _]|[_ [e H]]]]; discriminate.
      * split; [|split; [apply Hno2; discriminate|now left]].
        split; [discriminate|].
        intros [_ [[H _]|[_ [e H]]]]; discriminate.
  - cbn [snd]. split; [|split; [apply Hno2; discriminate|right; now left]].
    split; [|reflexivity].
    intros _. split; [reflexivity|]. right. split; [reflexivity|].
    now exists e.
Qed.

Lemma program_exit_status_witness :
  Cli.program Fixture.no_lower Fixture.unreachable
    Sample.accepting_ChatOllama Sample.accepting_create_deep_agent
    (lit "prompt") (Returned Fixture.settings)
    (Parsed Fixture.validate_args) Eof =
  ([[Cli.robot] ++ lit " Deep Agent with Ollama CLI" ++ nl;
    Py.times "=" 50 ++ nl;
    [Cli.cross] ++ lit " Configuration validation failed: "
      ++ lit "Configuration validation failed:" ++ nl
      ++ lit "Cannot connect to Ollama server: Connection refused" ++ nl],
   Exit 1) /\
  snd (Cli.program Fixture.no_lower (Fixture.answering 200)
         Fixture.rejecting_ChatOllama Sample.accepting_create_deep_agent
         (lit "prompt") (Returned Fixture.settings) (Parsed Fixture.args)
         Eof) = Exit 1 /\
  snd (Cli.program Fixture.no_lower (Fixture.answering 200)
         Sample.accepting_ChatOllama Sample.accepting_create_deep_agent
         (lit "prompt") (Raised ConfigModule.base_url_required)
         (Parsed Fixture.args) Eof) = Exit 1.
Proof.
  split; [reflexivity|]. split.
  - apply (proj1 (program_exit_status Fixture.no_lower
                    (Fixture.answering 200) Fixture.rejecting_ChatOllama
                    Sample.accepting_create_deep_agent (lit "prompt")
                    (Returned Fixture.settings) (Parsed Fixture.args) Eof)).
    split; [reflexivity|]. right. split; [reflexivity|].
    eexists. reflexivity.
  - apply (proj1 (program_exit_status Fixture.no_lower
                    (Fixture.answering 200) Sample.accepting_ChatOllama
                    Sample.accepting_create_deep_agent (lit "prompt")
                    (Raised ConfigModule.base_url_required)
                    (Parsed Fixture.args) Eof)).
    exact I.
Defined.

(** With [--config] or [--validate] the program neither constructs an agent
    nor reads any input: what it writes and how it ends is the same for
    every model client, every framework, every default prompt and every
    script, and with [--config] also for every server. *)
Theorem main_config_and_validate_touch_nothing_else
    (lower_beyond : str -> str) (settings : Settings)
    (requests_get requests_get' : str -> outcome Z)
    (ChatOllama ChatOllama' : str -> str -> N -> outcome LLM)
    (create_deep_agent create_deep_agent' : AgentKwargs -> outcome Runtime)
    (prompt prompt' : str) (args : Args) (script script' : Script) :
  (arg_config args = true ->
   Cli.main lower_beyond settings requests_get ChatOllama create_deep_agent
     prompt args script =
   Cli.main lower_beyond settings requests_get' ChatOllama'
     create_deep_agent' prompt' args script' /\
   Cli.main lower_beyond settings requests_get ChatOllama create_deep_agent
     prompt args script =
   (Gen.yielded Cli.print_banner ++ ConfigModule.print_config settings,
    Exit 0)) /\
  (arg_validate args = true ->
   Cli.main lower_beyond settings requests_get ChatOllama create_deep_agent
     prompt args script =
   Cli.main lower_beyond settings requests_get ChatOllama'
     create_deep_agent' prompt' args script').
Proof.
  unfold Cli.main. split.
  - intros ->. split; reflexivity.
  - intros ->. now destruct (arg_config args).
Qed.

(** * Properties of the setup script *)

(** [check_model_available] never raises.  It answers [True] exactly when
    the local server answers with status 200, its list of models can be
    read, every entry of the list has a name, and the model is among the
    names.  One entry without a name makes the answer [False] even if the
    model is listed. *)
Theorem check_model_available_answer
    (requests_get : str -> outcome Response) (model_name : str) :
  exists trace answer,
    Setup.check_model_available requests_get model_name
      = (trace, Returned answer) /\
    requests_of trace = [Setup.tags_url] /\
    commands_of trace = [] /\
    (answer = true <->
     exists response found names,
       requests_get Setup.tags_url = Returned response /\
       status_code response = 200%Z /\
       json_models response = Returned found /\
       Setup.names_of (or_else found []) = Returned names /\
       In model_name names).
Proof.
  unfold Setup.check_model_available.
  destruct (requests_get Setup.tags_url) as [[status js]|e] eqn:Eget.
  2: { cbn. do 2 eexists. split; [reflexivity|]. repeat split.
       - discriminate.
       - intros (r & f & n & H & _). discriminate. }
  cbn [Cli.call_in status_code json_models].
  destruct (Z.eqb_spec status 200) as [->|Hne].
  2: { cbn. apply Z.eqb_neq in Hne as Hb. rewrite Hb. cbn.
       do 2 eexists. split; [reflexivity|]. repeat split.
       - discriminate.
       - intros (r & f & n & [= <-] & Hs & _). cbn in Hs. congruence. }
  destruct js as [found|e].
  2: { cbn. do 2 eexists. split; [reflexivity|]. repeat split.
       - discriminate.
       - intros (r & f & n & [= <-] & _ & H & _). discriminate. }
  destruct (Setup.names_of (or_else found [])) as [names|e] eqn:En.
  2: { cbn. rewrite En. cbn. do 2 eexists. split; [reflexivity|].
       repeat split.
       - discriminate.
       - intros (r & f & n & [= <-] & _ & [= <-] & H & _). congruence. }
  destruct (existsb (Py.eqb model_name) names) eqn:Ex.
  - cbn. rewrite En. cbn. rewrite Ex. cbn.
    do 2 eexists. split; [reflexivity|]. repeat split.
    intros _. exists {| status_code := 200; json_models := Returned found |}.
    exists found, names. repeat split; try assumption.
    apply existsb_exists in Ex as (n & Hin & Heq).
    apply py_eqb_eq in Heq. now subst.
  - cbn. rewrite En. cbn. rewrite Ex. cbn.
    do 2 eexists. split; [reflexivity|]. repeat split.
    + discriminate.
    + intros (r & f & n & [= <-] & _ & [= <-] & Hn & Hin).
      rewrite En in Hn. injection Hn as <-.
      assert (existsb (Py.eqb model_name) names = true); [|congruence].
      apply existsb_exists. exists model_name. split; [exact Hin|].
      now apply py_eqb_eq.
Qed.

Lemma check_model_available_witness :
  exists trace,
    Setup.check_model_available
      (SetupFixture.serving [Some (lit "llama3"); None]) (lit "llama3")
    = (trace, Returned false).
Proof.
  destruct (check_model_available_answer
              (SetupFixture.serving [Some (lit "llama3"); None])
              (lit "llama3")) as (trace & answer & H & _).
  exists trace. rewrite H. f_equal. f_equal.
  cbn in H. now injection H as _ <-.
Defined.

Ltac setup_unfold :=
  unfold Setup.main, Setup.pull_model, Setup.run_command,
    Setup.check_ollama_installed, Setup.check_ollama_server,
    Setup.check_model_available, Setup.farewell, ollama_installed, server_up,
    model_available, Setup.print.

Ltac setup_reduce :=
  cbn [Gen.bind Gen.yield Gen.ret Gen.raise Gen.try_except Gen.yielded
       Gen.finish fst snd app negb andb Cli.call_in status_code json_models
       returncode process_stdout truthy].

Ltac setup_pull run_checked :=
  repeat match goal with
  | |- context [run_checked ?c] =>
      let so := fresh "so" in
      let se := fresh "se" in
      destruct (run_checked c) as [|? so se|?]; [|destruct so, se|]
  end.

Ltac setup_done run_checked :=
  setup_reduce; setup_pull run_checked; reflexivity.

(** The shell commands of the setup script, in order.  Nothing is run on
    a Python older than 3.8.  Otherwise [uv sync] is run; only if it
    succeeds, [ollama --version]; and [ollama pull] with the configured
    model is run only if, moreover, Ollama is installed, the local server
    answers, the configuration can be imported and the server does not list
    the model.  No other command is ever run. *)
Theorem setup_main_commands
    (run_checked : str -> Checked) (run_plain : str -> outcome Process)
    (requests_get : str -> outcome Response)
    (major minor : N) (imported : outcome Settings) :
  commands_of
    (Gen.yielded
       (Setup.main run_checked run_plain requests_get major minor imported))
  =
  if Setup.too_old major minor then []
  else
    lit "uv sync" ::
    match run_checked (lit "uv sync") with
    | Completed =>
        lit "ollama --version" ::
        (if ollama_installed run_plain && server_up requests_get then
           match imported with
           | Returned settings =>
               if model_available requests_get (OLLAMA_MODEL (core settings))
               then []
               else [Setup.pull_command (OLLAMA_MODEL (core settings))]
           | Raised _ => []
           end
         else [])
    | _ => []
    end.
Proof.
  setup_unfold.
  destruct (Setup.too_old major minor); [reflexivity|].
  destruct (run_checked (lit "uv sync")) as [|? so se|?];
    [|destruct so, se; reflexivity|reflexivity].
  destruct (run_plain (lit "ollama --version")) as [[rc ?]|?];
    [setup_reduce; destruct (Z.eqb rc 0)|]; [|reflexivity|reflexivity].
  destruct (requests_get Setup.tags_url) as [[st js]|?]; [|reflexivity].
  setup_reduce. destruct (Z.eqb st 200); [|reflexivity].
  destruct imported as [settings|?]; [|reflexivity].
  setup_reduce. destruct js as [found|?]; [|setup_done run_checked].
  setup_reduce.
  destruct (Setup.names_of (or_else found [])) as [names|?];
    [|setup_done run_checked].
  setup_reduce.
  destruct (existsb (Py.eqb (OLLAMA_MODEL (core settings))) names);
    setup_done run_checked.
Qed.

Lemma setup_main_commands_witness :
  commands_of
    (Gen.yielded
       (Setup.main SetupFixture.all_fine SetupFixture.version_zero
          (SetupFixture.serving [Some (lit "mistral")]) 3 11
          (Returned Fixture.settings)))
  = [lit "uv sync"; lit "ollama --version"; lit "ollama pull llama3"] /\
  commands_of
    (Gen.yielded
       (Setup.main SetupFixture.sync_fails SetupFixture.version_zero
          (SetupFixture.serving [Some (lit "llama3")]) 3 11
          (Returned Fixture.settings)))
  = [lit "uv sync"].
Proof.
  split.
  - rewrite setup_main_commands. reflexivity.
  - rewrite setup_main_commands. reflexivity.
Defined.

Ltac setup_iff_leaf :=
  split;
  [ intros Hd;
    first [ discriminate Hd
          | repeat split; try reflexivity;
            first [left; reflexivity | right; reflexivity] ]
  | intros (H1 & H2 & H3 & H4 & H5);
    first [ discriminate
          | contradiction
          | destruct H5; discriminate
          | reflexivity ] ].

(** The setup script returns normally, past every [sys.exit(1)] and without
    an exception, exactly when the Python version is at least 3.8,
    [uv sync] succeeds, Ollama is installed, the local server answers, the
    configuration can be imported, and the configured model is either
    listed by the server or pulled successfully. *)
Theorem setup_main_succeeds_iff
    (run_checked : str -> Checked) (run_plain : str -> outcome Process)
    (requests_get : str -> outcome Response)
    (major minor : N) (imported : outcome Settings) :
  Gen.finish
    (Setup.main run_checked run_plain requests_get major minor imported)
    = Returned Done <->
  Setup.too_old major minor = false /\
  run_checked (lit "uv sync") = Completed /\
  ollama_installed run_plain = true /\
  server_up requests_get = true /\
  match imported with
  | Returned settings =>
      model_available requests_get (OLLAMA_MODEL (core settings)) = true \/
      run_checked (Setup.pull_command (OLLAMA_MODEL (core settings)))
        = Completed
  | Raised _ => False
  end.
Proof.
  setup_unfold.
  destruct (Setup.too_old major minor); [setup_iff_leaf|].
  destruct (run_checked (lit "uv sync")) as [|? so se|?] eqn:Esync;
    [|destruct so, se; setup_iff_leaf|setup_iff_leaf].
  destruct (run_plain (lit "ollama --version")) as [[rc ?]|?];
    [setup_reduce; destruct (Z.eqb rc 0)|];
    [|setup_iff_leaf|setup_iff_leaf].
  destruct (requests_get Setup.tags_url) as [[st js]|?]; [|setup_iff_leaf].
  setup_reduce. destruct (Z.eqb st 200); [|setup_iff_leaf].
  destruct imported as [settings|?]; [|setup_iff_leaf].
  setup_reduce.
  destruct js as [found|?].
  2: { setup_reduce.
       destruct (run_checked
                   (Setup.pull_command (OLLAMA_MODEL (core settings))))
         as [|? so se|?]; [|destruct so, se|]; setup_iff_leaf. }
  setup_reduce.
  destruct (Setup.names_of (or_else found [])) as [names|?].
  2: { setup_reduce.
       destruct (run_checked
                   (Setup.pull_command (OLLAMA_MODEL (core settings))))
         as [|? so se|?]; [|destruct so, se|]; setup_iff_leaf. }
  setup_reduce.
  destruct (existsb (Py.eqb (OLLAMA_MODEL (core settings))) names).
  - setup_iff_leaf.
  - setup_reduce.
    destruct (run_checked
                (Setup.pull_command (OLLAMA_MODEL (core settings))))
      as [|? so se|?]; [|destruct so, se|]; setup_iff_leaf.
Qed.
